(** * Worktree lifecycle scripts of claude-flow-kit

    A shallow embedding of the five worktree scripts
    ([scripts/worktree_create.py], [worktree_merge.py],
    [worktree_cleanup.py], [worktree_check_pr_status.py] and
    [worktree_poll_pr.py]) together with the properties of the registry
    they share.

    Conventions of the model:
    - a Python [str] is a Rocq [string] whose characters are read as the
      code points U+0000 .. U+00FF;
    - the registry (a JSON object keyed by worktree identifier) is a
      [gmap string worktree_info]; a registry file that parses holds
      entries with the seven keys that [create_worktree] writes and the
      optional ['pr'] sub-record, so an entry is never an empty (falsy)
      object and [worktree_info['branch']] never raises [KeyError];
    - external tools ([git], [gh], [docker-compose]), the file system
      outside the registry file and the clock are an [environment]: an
      oracle that answers from the history of effects so far;
    - [sys.exit], exceptions and [try]/[except] are an outcome monad over
      the world (registry file and history);
    - console output is not modelled: a "warning" is a handled failure
      after which the script carries on; neither are I/O errors while the
      registry file is written, nor the operator's interrupt of the
      polling loop. *)

From Stdlib Require Import ZArith String Ascii List Lia.
From stdpp Require Import gmap strings.

Local Open Scope string_scope.
Local Open Scope Z_scope.

(** ** Python text primitives *)

Module Py.

Definition code (c : ascii) : nat := nat_of_ascii c.

Definition between (lo hi : nat) (c : ascii) : bool :=
  (Nat.leb lo (code c)) && (Nat.leb (code c) hi).

(** [c.isalnum()] for one code point below U+0100: ASCII digits and
    letters, and the Latin-1 letters, superscript digits and vulgar
    fractions (everything of category L* or N* in that block). *)
Definition char_isalnum (c : ascii) : bool :=
  between 48 57 c || between 65 90 c || between 97 122 c
  || Nat.eqb (code c) 170 || between 178 179 c || Nat.eqb (code c) 181
  || between 185 186 c || between 188 190 c
  || between 192 214 c || between 216 246 c || between 248 255 c.

(** [c.isspace()] below U+0100. *)
Definition char_isspace (c : ascii) : bool :=
  between 9 13 c || between 28 32 c || Nat.eqb (code c) 133
  || Nat.eqb (code c) 160.

(** [s.isalnum()]: every character is alphanumeric and there is at least
    one character. *)
Fixpoint all_alnum (s : string) : bool :=
  match s with
  | EmptyString => true
  | String c s' => char_isalnum c && all_alnum s'
  end.

Definition isalnum (s : string) : bool :=
  match s with
  | EmptyString => false
  | String _ _ => all_alnum s
  end.

(** [s.replace(c, '')] for a one-character pattern [c]. *)
Fixpoint remove_char (c : ascii) (s : string) : string :=
  match s with
  | EmptyString => EmptyString
  | String d s' =>
      if Ascii.eqb d c then remove_char c s' else String d (remove_char c s')
  end.

(** [s.strip()] *)
Fixpoint lstrip_chars (l : list ascii) : list ascii :=
  match l with
  | c :: l' => if char_isspace c then lstrip_chars l' else l
  | nil => nil
  end.

Definition strip (s : string) : string :=
  string_of_list_ascii
    (rev (lstrip_chars (rev (lstrip_chars (list_ascii_of_string s))))).

(** [str(n)] for a non-negative integer: the decimal digits, most
    significant first. [fuel] bounds the number of divisions by ten. *)
Definition digit_char (d : nat) : ascii := ascii_of_nat (48 + d).

Fixpoint decimal_digits (fuel n : nat) (acc : string) : string :=
  let acc' := String (digit_char (n mod 10)) acc in
  match fuel with
  | O => acc'
  | S fuel' =>
      if Nat.ltb n 10 then acc' else decimal_digits fuel' (n / 10) acc'
  end.

Definition str_of_nat (n : nat) : string := decimal_digits n n EmptyString.

Fixpoint zeros (k : nat) : string :=
  match k with
  | O => EmptyString
  | S k' => String "0"%char (zeros k')
  end.

(** [f"{n:0{width}d}"] for a non-negative integer: the decimal digits,
    left-padded with zeros up to [width] characters. *)
Definition format_0d (width n : nat) : string :=
  let digits := str_of_nat n in
  zeros (width - String.length digits) ++ digits.

(** [PurePosixPath(p).parent] and [p / name] on the text of a
    normalised POSIX path (what [git rev-parse --show-toplevel] prints). *)
Fixpoint drop_last_part (rev_chars : list ascii) : list ascii :=
  match rev_chars with
  | c :: l' => if Ascii.eqb c "/"%char then l' else drop_last_part l'
  | nil => nil
  end.

Definition has_slash (s : string) : bool :=
  existsb (fun c => Ascii.eqb c "/"%char) (list_ascii_of_string s).

Definition path_parent (p : string) : string :=
  if negb (has_slash p) then "."
  else
    match rev (drop_last_part (rev (list_ascii_of_string p))) with
    | nil => "/"
    | l => string_of_list_ascii l
    end.

Definition path_join (p name : string) : string :=
  if String.eqb p "/" then "/" ++ name
  else if String.eqb p "." then name
  else p ++ "/" ++ name.

End Py.

(** ** The registry *)

(** The ['pr'] sub-record of an entry. Both keys are read with [.get], so
    either may be absent. *)
Record pr_info := {
  pr_number : option Z;
  pr_title : option string
}.

(** One registry entry; the fields are the keys ['id'], ['feature_name'],
    ['path'], ['branch'], ['base_branch'], ['created'], ['status'] and
    ['pr'] of the JSON object. *)
Record worktree_info := {
  wt_id : string;
  wt_feature_name : string;
  wt_path : string;
  wt_branch : string;
  wt_base_branch : string;
  wt_created : string;
  wt_status : string;
  wt_pr : option pr_info
}.

(** [worktree_info['status'] = s] *)
Definition set_status (info : worktree_info) (s : string) : worktree_info :=
  {| wt_id := wt_id info;
     wt_feature_name := wt_feature_name info;
     wt_path := wt_path info;
     wt_branch := wt_branch info;
     wt_base_branch := wt_base_branch info;
     wt_created := wt_created info;
     wt_status := s;
     wt_pr := wt_pr info |}.

Abbreviation registry := (gmap string worktree_info).

(** What [REGISTRY_FILE] holds: nothing, text that [json.load] rejects, or
    a registry. *)
Inductive registry_file :=
| NoFile
| Malformed
| Stored (reg : registry).

(** ** Effects *)

(** The external commands the scripts start, by their argument vectors. *)
Inductive command :=
| GitRevParseAbbrevRefHead
| GitRevParseShowToplevel
| GitWorktreeAdd (feature_branch worktree_path base_branch : string)
| GitCheckout (branch : string)
| GitPullOrigin (branch : string)
| GitMergeNoFf (feature_branch message : string)
| GitPushOrigin (branch : string)
| GitWorktreeRemoveForce (worktree_path : string)
| GitBranchDelete (branch : string)
| GitPushOriginDelete (branch : string)
| DockerComposeDown (cwd : string)
| GhPrView (number : option Z).

Definition is_git (c : command) : bool :=
  match c with
  | DockerComposeDown _ | GhPrView _ => false
  | _ => true
  end.

Inductive event :=
| Exec (c : command)
| Slept (seconds : Z)
| Wrote (reg : registry)
| MadeDir (path : string)        (* a [mkdir] call that went through *)
| RemovedTree (path : string).   (* a [shutil.rmtree] call that went through *)

(** [subprocess.CompletedProcess] *)
Record completed := {
  returncode : Z;
  stdout : string
}.

(** What starting a command yields: the executable is missing, or the
    process ran to completion. *)
Inductive spawned :=
| NotFound
| Ran (r : completed).

(** What [json.loads] makes of the output of [gh pr view --json ...]: not
    JSON at all, or an object whose ['state'] and ['mergedAt'] keys may be
    absent. *)
Inductive pr_view :=
| NotJson
| PrData (state merged_at : option string).

(** The environment answers from the history of effects (newest first). *)
Record environment := {
  spawn : list event -> command -> spawned;
  path_exists : list event -> string -> bool;
  mkdir_ok : list event -> string -> bool;
  rmtree_ok : list event -> string -> bool;
  now_isoformat : list event -> string;
  json_loads : string -> pr_view;
  sleep_max : Z
}.

Record world := {
  file : registry_file;
  history : list event
}.

Definition log_event (e : event) (w : world) : world :=
  {| file := file w; history := e :: history w |}.

Inductive exn :=
| CalledProcessError
| FileNotFoundError
| JSONDecodeError
| KeyError
| OSError
| ValueError
| OverflowError.

Inductive outcome (A : Type) :=
| Returned (a : A)
| Exited (code : Z)
| Raised (e : exn).

Arguments Returned {A} a.
Arguments Exited {A} code.
Arguments Raised {A} e.

(** The exit status of the interpreter: [sys.exit(c)] gives [c], an
    uncaught exception gives 1, falling off the end of the script 0. *)
Definition exit_status {A} (o : outcome A) : Z :=
  match o with
  | Returned _ => 0
  | Exited c => c
  | Raised _ => 1
  end.

Definition M (A : Type) : Type := world -> outcome A * world.

Definition ret {A} (a : A) : M A := fun w => (Returned a, w).

Definition bind {A B} (m : M A) (k : A -> M B) : M B :=
  fun w =>
    match m w with
    | (Returned a, w') => k a w'
    | (Exited c, w') => (Exited c, w')
    | (Raised e, w') => (Raised e, w')
    end.

Definition sys_exit {A} (c : Z) : M A := fun w => (Exited c, w).

Definition raise {A} (e : exn) : M A := fun w => (Raised e, w).

Definition emit (e : event) : M unit := fun w => (Returned tt, log_event e w).

(** [try: body except <handles>: handler] *)
Definition try_except {A} (body : M A) (handles : exn -> bool) (handler : M A) : M A :=
  fun w =>
    match body w with
    | (Raised e, w') => if handles e then handler w' else (Raised e, w')
    | r => r
    end.

Declare Scope script_scope.
Delimit Scope script_scope with script.

Notation "x <- m ;; k" := (bind m (fun x => k))
  (at level 100, m at next level, right associativity) : script_scope.
Notation "m ;;; k" := (bind m (fun _ => k))
  (at level 100, right associativity) : script_scope.

Local Open Scope script_scope.

Definition except_CalledProcessError (e : exn) : bool :=
  match e with CalledProcessError => true | _ => false end.

Definition except_CalledProcessError_or_FileNotFoundError (e : exn) : bool :=
  match e with CalledProcessError | FileNotFoundError => true | _ => false end.

Definition except_Exception (e : exn) : bool := true.

Section Primitives.

Variable E : environment.

(** [subprocess.run(argv)] *)
Definition subprocess_run (c : command) : M completed :=
  fun w =>
    match spawn E (history w) c with
    | NotFound => (Raised FileNotFoundError, log_event (Exec c) w)
    | Ran r => (Returned r, log_event (Exec c) w)
    end.

(** [subprocess.run(argv, check=True)] *)
Definition subprocess_run_check (c : command) : M completed :=
  r <- subprocess_run c ;;
  if returncode r =? 0 then ret r else raise CalledProcessError.

(** [path.exists()] *)
Definition exists_ (path : string) : M bool :=
  fun w => (Returned (path_exists E (history w) path), w).

(** [path.mkdir(exist_ok=True)] *)
Definition mkdir (path : string) : M unit :=
  fun w =>
    if mkdir_ok E (history w) path
    then (Returned tt, log_event (MadeDir path) w)
    else (Raised OSError, w).

(** [shutil.rmtree(path)] *)
Definition rmtree (path : string) : M unit :=
  fun w =>
    if rmtree_ok E (history w) path
    then (Returned tt, log_event (RemovedTree path) w)
    else (Raised OSError, w).

(** [datetime.now().isoformat()] *)
Definition datetime_now_isoformat : M string :=
  fun w => (Returned (now_isoformat E (history w)), w).

(** [time.sleep(seconds)]: a negative length is a [ValueError], one beyond
    what the platform clock represents ([sleep_max], 9223372036 seconds
    where the clock counts nanoseconds in 64 bits) an [OverflowError]. *)
Definition time_sleep (seconds : Z) : M unit :=
  if seconds <? 0 then raise ValueError
  else if sleep_max E <? seconds then raise OverflowError
  else emit (Slept seconds).

End Primitives.

(** *** The registry functions every script carries

    [load_registry], [save_registry] and [get_worktree_info] are repeated
    in the scripts; the copies differ in the messages they print only. *)

Definition load_registry : M registry :=
  fun w =>
    match file w with
    | NoFile => (Returned ∅, w)
    | Malformed => (Raised JSONDecodeError, w)
    | Stored reg => (Returned reg, w)
    end.

(** [json.dump] of the whole mapping over the file (create's copy makes
    the directory first). *)
Definition save_registry (reg : registry) : M unit :=
  fun w => (Returned tt, {| file := Stored reg; history := Wrote reg :: history w |}).

Definition get_worktree_info (worktree_id : string) (reg : registry) : option worktree_info :=
  reg !! worktree_id.

(** [not registry] *)
Definition empty_dict (reg : registry) : bool := Nat.eqb (size reg) 0.

(** ** scripts/worktree_create.py *)

Module Create.
Section Script.

Variable E : environment.

Definition get_current_branch : M string :=
  result <- subprocess_run_check E GitRevParseAbbrevRefHead ;;
  ret (Py.strip (stdout result)).

Definition get_repo_root : M string :=
  result <- subprocess_run_check E GitRevParseShowToplevel ;;
  ret (Py.strip (stdout result)).

Definition generate_worktree_id (reg : registry) : string :=
  let counter := (size reg + 1)%nat in
  "worktree-" ++ Py.format_0d 2 counter.

Definition create_worktree (feature_name : string) : M (option worktree_info) :=
  base_branch <- get_current_branch ;;
  repo_root <- get_repo_root ;;
  let worktrees_dir := Py.path_join (Py.path_parent repo_root) "worktrees" in
  mkdir E worktrees_dir ;;;
  let worktree_path := Py.path_join worktrees_dir feature_name in
  present <- exists_ E worktree_path ;;
  if present then ret None
  else
    let feature_branch := "feature/" ++ feature_name in
    added <- try_except
               (subprocess_run_check E
                  (GitWorktreeAdd feature_branch worktree_path base_branch) ;;;
                ret true)
               except_CalledProcessError
               (ret false) ;;
    if negb added then ret None
    else
      reg <- load_registry ;;
      let worktree_id := generate_worktree_id reg in
      created <- datetime_now_isoformat E ;;
      let info :=
        {| wt_id := worktree_id;
           wt_feature_name := feature_name;
           wt_path := worktree_path;
           wt_branch := feature_branch;
           wt_base_branch := base_branch;
           wt_created := created;
           wt_status := "active";
           wt_pr := None |} in
      save_registry (<[worktree_id := info]> reg) ;;;
      ret (Some info).

(** The feature-name check of [main]. *)
Definition valid_feature_name (feature_name : string) : bool :=
  Py.isalnum (Py.remove_char "_" (Py.remove_char "-" feature_name)).

(** [argv] is [sys.argv[1:]]. *)
Definition main (argv : list string) : M unit :=
  match argv with
  | [] => sys_exit 1
  | feature_name :: _ =>
      if negb (valid_feature_name feature_name) then sys_exit 1
      else
        result <- create_worktree feature_name ;;
        match result with
        | Some _ => sys_exit 0
        | None => sys_exit 1
        end
  end.

End Script.
End Create.

(** ** scripts/worktree_merge.py *)

Module Merge.
Section Script.

Variable E : environment.

Definition merge_worktree (worktree_id : string) : M unit :=
  reg <- load_registry ;;
  if empty_dict reg then sys_exit 1
  else
    match get_worktree_info worktree_id reg with
    | None => sys_exit 1
    | Some info =>
        let feature_branch := wt_branch info in
        let base_branch := wt_base_branch info in
        try_except
          (subprocess_run_check E (GitCheckout base_branch) ;;; ret tt)
          except_CalledProcessError
          (sys_exit 1) ;;;
        try_except
          (subprocess_run_check E (GitPullOrigin base_branch) ;;; ret tt)
          except_CalledProcessError
          (ret tt) ;;;
        try_except
          (subprocess_run_check E
             (GitMergeNoFf feature_branch
                ("Merge " ++ feature_branch ++ " into " ++ base_branch)) ;;;
           ret tt)
          except_CalledProcessError
          (sys_exit 1) ;;;
        try_except
          (subprocess_run_check E (GitPushOrigin base_branch) ;;; ret tt)
          except_CalledProcessError
          (ret tt) ;;;
        save_registry (<[worktree_id := set_status info "merged"]> reg)
    end.

Definition main (argv : list string) : M unit :=
  match argv with
  | [] => sys_exit 1
  | worktree_id :: _ => merge_worktree worktree_id
  end.

End Script.
End Merge.

(** ** scripts/worktree_cleanup.py *)

Module Cleanup.
Section Script.

Variable E : environment.

Definition cleanup_docker (worktree_path : string) : M unit :=
  let docker_compose := Py.path_join worktree_path "docker-compose.yml" in
  present <- exists_ E docker_compose ;;
  if negb present then ret tt
  else
    try_except
      (subprocess_run_check E (DockerComposeDown worktree_path) ;;; ret tt)
      except_CalledProcessError_or_FileNotFoundError
      (ret tt).

Definition cleanup_worktree (worktree_id : string) : M unit :=
  reg <- load_registry ;;
  if empty_dict reg then sys_exit 1
  else
    match get_worktree_info worktree_id reg with
    | None => sys_exit 1
    | Some info =>
        let worktree_path := wt_path info in
        let feature_branch := wt_branch info in
        let base_branch := wt_base_branch info in
        present <- exists_ E worktree_path ;;
        (if present then cleanup_docker worktree_path else ret tt) ;;;
        try_except
          (subprocess_run_check E (GitWorktreeRemoveForce worktree_path) ;;; ret tt)
          except_CalledProcessError
          (still_there <- exists_ E worktree_path ;;
           if still_there
           then try_except (rmtree E worktree_path) except_Exception (ret tt)
           else ret tt) ;;;
        try_except
          (subprocess_run_check E (GitBranchDelete feature_branch) ;;; ret tt)
          except_CalledProcessError
          (ret tt) ;;;
        try_except
          (subprocess_run_check E (GitPushOriginDelete feature_branch) ;;; ret tt)
          except_CalledProcessError
          (ret tt) ;;;
        try_except
          (subprocess_run_check E (GitCheckout base_branch) ;;; ret tt)
          except_CalledProcessError
          (ret tt) ;;;
        save_registry (<[worktree_id := set_status info "cleaned_up"]> reg)
    end.

Definition main (argv : list string) : M unit :=
  match argv with
  | [] => sys_exit 1
  | worktree_id :: _ => cleanup_worktree worktree_id
  end.

End Script.
End Cleanup.

(** ** scripts/worktree_check_pr_status.py *)

Module CheckPrStatus.
Section Script.

Variable E : environment.

(** [not pr_info] for a sub-record that is present: the empty object. *)
Definition empty_pr (pr : pr_info) : bool :=
  match pr_number pr, pr_title pr with
  | None, None => true
  | _, _ => false
  end.

Definition check_pr_status (worktree_id : string) : M (string * option string) :=
  reg <- load_registry ;;
  if empty_dict reg then ret ("ERROR", None)
  else
    match get_worktree_info worktree_id reg with
    | None => ret ("ERROR", None)
    | Some info =>
        match wt_pr info with
        | None => ret ("ERROR", None)
        | Some pr =>
            if empty_pr pr then ret ("ERROR", None)
            else
              try_except
                (result <- subprocess_run_check E (GhPrView (pr_number pr)) ;;
                 match json_loads E (stdout result) with
                 | NotJson => raise JSONDecodeError
                 | PrData None _ => raise KeyError
                 | PrData (Some state) merged_at => ret (state, merged_at)
                 end)
                except_CalledProcessError
                (ret ("ERROR", None))
        end
    end.

(** After the check, [main] looks the entry up once more (for the number
    it prints) and turns the state into the exit status. *)
Definition main (argv : list string) : M unit :=
  match argv with
  | [] => sys_exit 2
  | worktree_id :: _ =>
      checked <- check_pr_status worktree_id ;;
      let state := fst checked in
      reg <- load_registry ;;
      match get_worktree_info worktree_id reg with
      | None => sys_exit 2
      | Some _ =>
          if String.eqb state "MERGED" then sys_exit 0
          else if String.eqb state "OPEN" then sys_exit 1
          else if String.eqb state "CLOSED" then sys_exit 2
          else sys_exit 2
      end
  end.

End Script.
End CheckPrStatus.

(** ** scripts/worktree_poll_pr.py *)

Module PollPr.
Section Script.

Variable E : environment.

(** [subprocess.run(['python', script, worktree_id], capture_output=True)]
    runs the named script of this repository against the same registry
    file and environment and hands back its exit status. *)
Definition run_script (script : M unit) : M Z :=
  fun w =>
    let (o, w') := script w in (Returned (exit_status o), w').

(** One turn of the [while True] loop; returning means "poll again". *)
Definition poll_once (worktree_id : string) (interval_seconds : Z) : M unit :=
  returncode <- run_script (CheckPrStatus.main E [worktree_id]) ;;
  if returncode =? 0 then
    cleanup_returncode <- run_script (Cleanup.main E [worktree_id]) ;;
    if cleanup_returncode =? 0 then sys_exit 0 else sys_exit 1
  else if returncode =? 1 then time_sleep E interval_seconds
  else sys_exit 1.

(** The loop, cut off after [fuel] turns: [None] says it is still
    polling. *)
Fixpoint poll_loop (fuel : nat) (worktree_id : string) (interval_seconds : Z)
    (w : world) : option (outcome unit) * world :=
  match fuel with
  | O => (None, w)
  | S fuel' =>
      match poll_once worktree_id interval_seconds w with
      | (Returned _, w') => poll_loop fuel' worktree_id interval_seconds w'
      | (o, w') => (Some o, w')
      end
  end.

Definition poll_pr_status (fuel : nat) (worktree_id : string) (interval_minutes : Z)
    (w : world) : option (outcome unit) * world :=
  let interval_seconds := interval_minutes * 60 in
  poll_loop fuel worktree_id interval_seconds w.

End Script.
End PollPr.

(** ** Vocabulary of the stated properties *)

Fixpoint all_chars (p : ascii -> bool) (s : string) : bool :=
  match s with
  | EmptyString => true
  | String c s' => p c && all_chars p s'
  end.

Fixpoint any_char (p : ascii -> bool) (s : string) : bool :=
  match s with
  | EmptyString => false
  | String c s' => p c || any_char p s'
  end.

Definition hyphen_or_underscore (c : ascii) : bool :=
  Ascii.eqb c "-"%char || Ascii.eqb c "_"%char.

(** "alphanumerics, hyphens, and underscores" *)
Definition allowed_char (c : ascii) : bool :=
  Py.char_isalnum c || hyphen_or_underscore c.

(** The number a string of decimal digits denotes. *)
Fixpoint value_of_digits (acc : nat) (s : string) : nat :=
  match s with
  | EmptyString => acc
  | String c s' => value_of_digits (acc * 10 + (Py.code c - 48)) s'
  end.

(** [next_id] is what [create_worktree] does between loading and saving:
    load the registry, derive the identifier. *)
Definition next_id : M string :=
  (reg <- load_registry ;; ret (Create.generate_worktree_id reg))%script.

(** ** Sample data for the concrete instances *)

Definition sample_info (worktree_id feature_name base_branch status : string)
    (pr : option pr_info) : worktree_info :=
  {| wt_id := worktree_id;
     wt_feature_name := feature_name;
     wt_path := "/home/dev/worktrees/" ++ feature_name;
     wt_branch := "feature/" ++ feature_name;
     wt_base_branch := base_branch;
     wt_created := "2025-01-01T00:00:00";
     wt_status := status;
     wt_pr := pr |}.

Definition auth_ui : worktree_info :=
  sample_info "worktree-01" "auth-ui" "main" "active"
    (Some {| pr_number := Some 7; pr_title := Some "Add auth UI" |}).

Definition billing : worktree_info :=
  sample_info "worktree-02" "billing" "develop" "active" None.

Definition one_entry : registry := <["worktree-01" := auth_ui]> ∅.

Definition two_entries : registry := <["worktree-02" := billing]> one_entry.

(** [git] is installed: starting a git command never fails to find the
    executable. *)
Definition git_installed (E : environment) : Prop :=
  forall h c, is_git c = true -> spawn E h c <> NotFound.

(** A command ran and reported success. *)
Definition succeeds (E : environment) (h : list event) (c : command) : bool :=
  match spawn E h c with
  | Ran r => returncode r =? 0
  | NotFound => false
  end.

(** What the PR query tells [check_pr_status]: the [gh] process failed, or
    it printed a JSON object with a ['state']. Nothing is observed when
    [gh] is not installed or prints something else. *)
Inductive query_result :=
| QueryFailed
| QueryState (state : string).

Definition observe_query (E : environment) (h : list event) (number : option Z)
    : option query_result :=
  match spawn E h (GhPrView number) with
  | NotFound => None
  | Ran r =>
      if returncode r =? 0 then
        match json_loads E (stdout r) with
        | PrData (Some state) _ => Some (QueryState state)
        | _ => None
        end
      else Some QueryFailed
  end.

(** The exit-code contract of the status check. *)
Definition contract_exit_code (q : query_result) : Z :=
  match q with
  | QueryState "MERGED" => 0
  | QueryState "OPEN" => 1
  | QueryState _ => 2
  | QueryFailed => 2
  end.

(** An environment in which every tool is installed and every command
    succeeds, no path exists yet, and [gh] reports the state [pr_state]. A
    toy decoder stands for [json.loads]: the text is the state itself. *)
Definition sample_json_loads (text : string) : pr_view :=
  if String.eqb text EmptyString then NotJson else PrData (Some text) None.

Definition sample_stdout (pr_state : string) (c : command) : string :=
  match c with
  | GitRevParseAbbrevRefHead => "main
"
  | GitRevParseShowToplevel => "/home/dev/repo
"
  | GhPrView _ => pr_state
  | _ => EmptyString
  end.

Definition sample_env (pr_state : list event -> string) (git_returncode : command -> Z)
    : environment :=
  {| spawn := fun h c =>
       Ran {| returncode := if is_git c then git_returncode c else 0;
              stdout := sample_stdout (pr_state h) c |};
     path_exists := fun _ _ => false;
     mkdir_ok := fun _ _ => true;
     rmtree_ok := fun _ _ => true;
     now_isoformat := fun _ => "2025-01-01T00:00:00";
     json_loads := sample_json_loads;
     sleep_max := 9223372036 |}.

Definition calm (pr_state : string) : environment :=
  sample_env (fun _ => pr_state) (fun _ => 0).

(** As [calm], but the merge meets a conflict. *)
Definition conflicting : environment :=
  sample_env (fun _ => "OPEN")
    (fun c => match c with GitMergeNoFf _ _ => 1 | _ => 0 end).

Definition start (f : registry_file) : world := {| file := f; history := [] |}.

(** The registry a script finds in the file when [load_registry] returns. *)
Definition loaded (f : registry_file) (reg : registry) : Prop :=
  match f with
  | NoFile => reg = ∅
  | Malformed => False
  | Stored stored => reg = stored
  end.

(** [grows P h h']: the history [h'] is [h] with further events put in
    front, each of which satisfies [P]. *)
Inductive grows (P : event -> Prop) (h : list event) : list event -> Prop :=
| grows_done : grows P h h
| grows_step e h' : P e -> grows P h h' -> grows P h (e :: h').

Definition not_a_write (e : event) : Prop :=
  match e with
  | Wrote _ => False
  | _ => True
  end.

(** Two entries that agree on every key but ['status']. *)
Definition same_but_status (a b : worktree_info) : Prop :=
  wt_id a = wt_id b
  /\ wt_feature_name a = wt_feature_name b
  /\ wt_path a = wt_path b
  /\ wt_branch a = wt_branch b
  /\ wt_base_branch a = wt_base_branch b
  /\ wt_created a = wt_created b
  /\ wt_pr a = wt_pr b.

(** The registry file after a script, compared with the file before: it
    holds the same identifiers, every entry but the one looked up is the
    same, and that one differs in its status at most. *)
Definition touches_only_status (worktree_id : string) (f f' : registry_file) : Prop :=
  match f, f' with
  | Stored reg, Stored reg' =>
      forall id,
        match reg !! id, reg' !! id with
        | Some a, Some b => same_but_status a b /\ (id <> worktree_id -> a = b)
        | None, None => True
        | _, _ => False
        end
  | _, _ => f' = f
  end.

(** No identifier of the registry file is lost. *)
Definition keeps_entries (f f' : registry_file) : Prop :=
  forall reg, f = Stored reg ->
    exists reg', f' = Stored reg'
      /\ forall id, is_Some (reg !! id) -> is_Some (reg' !! id).

(** The base branch the registry file stores for an identifier. *)
Definition stored_base_branch (f : registry_file) (worktree_id : string) : option string :=
  match f with
  | Stored reg => wt_base_branch <$> reg !! worktree_id
  | _ => None
  end.

(** The status the registry file stores for an identifier. *)
Definition stored_status (f : registry_file) (worktree_id : string) : option string :=
  match f with
  | Stored reg => wt_status <$> reg !! worktree_id
  | _ => None
  end.

(** An event that takes its base branch from [base] and does not ask git
    for the branch checked out at present. *)
Definition uses_base_branch (base : option string) (e : event) : Prop :=
  match e with
  | Exec GitRevParseAbbrevRefHead => False
  | Exec (GitCheckout b) | Exec (GitPullOrigin b) | Exec (GitPushOrigin b) =>
      base = Some b
  | _ => True
  end.

(** The effects of cleanup before it writes the registry: commands and
    the removal of the worktree directory. *)
Definition removal_step (e : event) : Prop :=
  match e with
  | Exec _ | RemovedTree _ => True
  | _ => False
  end.

(** The lengths of the sleeps in a history, oldest first. *)
Fixpoint sleeps (h : list event) : list Z :=
  match h with
  | [] => []
  | Slept seconds :: h' => sleeps h' ++ [seconds]
  | _ :: h' => sleeps h'
  end.

(** An environment whose pull request is OPEN until the loop has slept
    twice and MERGED from then on. *)
Definition merged_after_two_sleeps : environment :=
  sample_env
    (fun h => if Nat.ltb (length (sleeps h)) 2 then "OPEN" else "MERGED")
    (fun _ => 0).

(** The world after [n] polls that each found the pull request open: a
    query and a sleep per poll. *)
Fixpoint after_open_polls (n : nat) (number : option Z) (seconds : Z) (w : world) : world :=
  match n with
  | O => w
  | S n' =>
      after_open_polls n' number seconds
        (log_event (Slept seconds) (log_event (Exec (GhPrView number)) w))
  end.

(** A registry numbered without gaps: its identifiers are exactly the
    ones [generate_worktree_id] hands out for the sizes 0, 1, ... up to
    its own size less one. This is what the scripts build from an empty
    registry. *)
Definition numbered (k : nat) : string := "worktree-" ++ Py.format_0d 2 k.

Definition gapless (reg : registry) : Prop :=
  forall id,
    is_Some (reg !! id) <-> exists k, (1 <= k <= size reg)%nat /\ id = numbered k.

(** ** Vocabulary of the further properties *)

(** Characters that would take a name out of its directory or split it:
    the path separators (slash and backslash, code 92), the dot and white
    space. *)
Definition unsafe_char (c : ascii) : bool :=
  Ascii.eqb c "/"%char || Ascii.eqb c "092"%char || Ascii.eqb c "."%char
  || Py.char_isspace c.

(** The registry file does not hold the identifier: there is no file, or
    the registry in it has no such key. *)
Definition unknown_worktree (f : registry_file) (worktree_id : string) : Prop :=
  match f with
  | NoFile => True
  | Malformed => False
  | Stored reg => reg !! worktree_id = None
  end.

(** The first steps of [create_worktree] went through from the history
    [h]: git reported the current branch [base_branch] and the top level
    of the repository, and the worktrees directory [worktrees_dir] next to
    it could be made. *)
Definition create_prelude (E : environment) (h : list event)
    (base_branch worktrees_dir : string) : Prop :=
  exists head top,
    spawn E h GitRevParseAbbrevRefHead = Ran head
    /\ returncode head = 0
    /\ base_branch = Py.strip (stdout head)
    /\ spawn E (Exec GitRevParseAbbrevRefHead :: h) GitRevParseShowToplevel = Ran top
    /\ returncode top = 0
    /\ worktrees_dir = Py.path_join (Py.path_parent (Py.strip (stdout top))) "worktrees"
    /\ mkdir_ok E (Exec GitRevParseShowToplevel :: Exec GitRevParseAbbrevRefHead :: h)
         worktrees_dir = true.

(** The history once those steps are done. *)
Definition after_prelude (h : list event) (worktrees_dir : string) : list event :=
  MadeDir worktrees_dir
  :: Exec GitRevParseShowToplevel :: Exec GitRevParseAbbrevRefHead :: h.

(** As [calm], but every path asked about exists already. *)
Definition occupied : environment :=
  {| spawn := spawn (calm "OPEN");
     path_exists := fun _ _ => true;
     mkdir_ok := mkdir_ok (calm "OPEN");
     rmtree_ok := rmtree_ok (calm "OPEN");
     now_isoformat := now_isoformat (calm "OPEN");
     json_loads := json_loads (calm "OPEN");
     sleep_max := sleep_max (calm "OPEN") |}.

(** As [calm], but [git worktree add] fails. *)
Definition add_fails : environment :=
  sample_env (fun _ => "OPEN")
    (fun c => match c with GitWorktreeAdd _ _ _ => 128 | _ => 0 end).

(** The world after [n] turns of the polling loop in which nothing but the
    sleep left a trace. *)
Fixpoint after_sleeps (n : nat) (seconds : Z) (w : world) : world :=
  match n with
  | O => w
  | S n' => after_sleeps n' seconds (log_event (Slept seconds) w)
  end.

(** As [calm], but [gh] is not installed. *)
Definition no_gh : environment :=
  {| spawn := fun h c =>
       match c with
       | GhPrView _ => NotFound
       | _ => spawn (calm "OPEN") h c
       end;
     path_exists := path_exists (calm "OPEN");
     mkdir_ok := mkdir_ok (calm "OPEN");
     rmtree_ok := rmtree_ok (calm "OPEN");
     now_isoformat := now_isoformat (calm "OPEN");
     json_loads := json_loads (calm "OPEN");
     sleep_max := sleep_max (calm "OPEN") |}.

(** ** install.py and setup_claude.py: the pure helpers *)

Module PyStr.

(** [c.lower()] for one code point below U+0100: the ASCII capitals and
    the Latin-1 capitals (all of U+00C0 .. U+00DE but the times sign)
    move up by 32, everything else stays. *)
Definition char_lower (c : ascii) : ascii :=
  if Py.between 65 90 c || Py.between 192 214 c || Py.between 216 222 c
  then ascii_of_nat (Py.code c + 32)
  else c.

(** [s.lower()] *)
Fixpoint lower (s : string) : string :=
  match s with
  | EmptyString => EmptyString
  | String c s' => String (char_lower c) (lower s')
  end.

(** [s.startswith(p)] *)
Fixpoint startswith (p s : string) : bool :=
  match p, s with
  | EmptyString, _ => true
  | String _ _, EmptyString => false
  | String a p', String b s' => Ascii.eqb a b && startswith p' s'
  end.

(** [sub in s] *)
Fixpoint contains (sub s : string) : bool :=
  startswith sub s
  || match s with
     | EmptyString => false
     | String _ s' => contains sub s'
     end.

(** [s.replace(old, new)] for a non-empty [old]: the occurrences of [old]
    are found from the left and do not overlap. [skip] counts the
    characters of an occurrence still to be passed over. *)
Fixpoint replace_skip (skip : nat) (old new s : string) : string :=
  match s with
  | EmptyString => EmptyString
  | String c s' =>
      match skip with
      | S skip' => replace_skip skip' old new s'
      | O =>
          if startswith old s
          then new ++ replace_skip (String.length old - 1) old new s'
          else String c (replace_skip 0 old new s')
      end
  end.

(** With an empty [old], [new] goes in front of every character and at
    the end. *)
Fixpoint intersperse (new s : string) : string :=
  match s with
  | EmptyString => new
  | String c s' => new ++ String c (intersperse new s')
  end.

Definition replace (old new s : string) : string :=
  match old with
  | EmptyString => intersperse new s
  | String _ _ => replace_skip 0 old new s
  end.

End PyStr.

(** A JSON value, for what the agent configurations hold. *)
#[local] Unset Elimination Schemes.

Inductive json :=
| JNull
| JBool (b : bool)
| JNum (n : Z)
| JStr (s : string)
| JList (l : list json)
| JDict (d : list (string * json)).

#[local] Set Elimination Schemes.

(** An agent configuration file that parses: an object whose ['agents']
    and ['settings'], when present, are objects themselves, and its other
    top-level keys. *)
Record config := {
  agents : option (gmap string json);
  settings : option (gmap string json);
  sections : gmap string json
}.

(** What a path holds for [json.load]: text that does not parse, or a
    configuration. A path that is not a key does not exist. *)
Inductive config_file :=
| NotAConfig
| Config (c : config).

(** What a path holds for [read_text(encoding='utf-8')]: something that
    cannot be read as text (a directory, bytes that are not UTF-8), or the
    text its bytes decode to, with the line ends as they are in the file.
    A path that is not a key does not exist. *)
Inductive text_file :=
| Unreadable
| Text (raw : string).

(** The operating system the script runs on, for [os.linesep]. *)
Inductive platform :=
| Posix
| Windows.

Module Io.

Definition CR : string := String "013" EmptyString.

Definition LF : string := String "010" EmptyString.

Definition CRLF : string := String "013" (String "010" EmptyString).

Definition linesep (os : platform) : string :=
  match os with
  | Posix => LF
  | Windows => CRLF
  end.

(** Text mode with [newline=None], reading: the line ends [CRLF] and [CR]
    come out as [LF]. *)
Definition read_newlines (raw : string) : string :=
  PyStr.replace CR LF (PyStr.replace CRLF LF raw).

(** Text mode with [newline=None], writing: [LF] goes out as
    [os.linesep], where that is something else. *)
Definition write_newlines (os : platform) (text : string) : string :=
  if String.eqb (linesep os) LF then text
  else PyStr.replace LF (linesep os) text.

(** [path.read_text(encoding='utf-8')]; [None] when it raises. *)
Definition read_text (f : text_file) : option string :=
  match f with
  | Unreadable => None
  | Text raw => Some (read_newlines raw)
  end.

(** What [path.write_text(content, encoding='utf-8')] leaves in the file;
    the write itself is taken to go through. *)
Definition write_text (os : platform) (content : string) : text_file :=
  Text (write_newlines os content).

End Io.

Module Install.

(** [prompt(question, default)] against the lines still to come on
    standard input: the answer and the lines left, or [None] when the
    input ends first ([input] raises [EOFError]). The question is only
    printed. The copy in setup_claude.py is the same. *)
Fixpoint first_answer (lines : list string) : option (string * list string) :=
  match lines with
  | [] => None
  | line :: rest =>
      let response := Py.strip line in
      match response with
      | EmptyString => first_answer rest
      | String _ _ => Some (response, rest)
      end
  end.

Definition prompt (question default : string) (lines : list string)
    : option (string * list string) :=
  match default with
  | String _ _ =>
      match lines with
      | [] => None
      | line :: rest =>
          let response := Py.strip line in
          match response with
          | EmptyString => Some (default, rest)
          | String _ _ => Some (response, rest)
          end
      end
  | EmptyString => first_answer lines
  end.

(** [yes_no(question, default)] likewise. *)
Definition yes_no (question : string) (default : bool) (lines : list string)
    : option (bool * list string) :=
  match lines with
  | [] => None
  | line :: rest =>
      let response := PyStr.lower (Py.strip line) in
      match response with
      | EmptyString => Some (default, rest)
      | String _ _ =>
          Some (String.eqb response "y" || String.eqb response "yes", rest)
      end
  end.

(** The replacements, a dict, in the order of its items. *)
Definition substitute (replacements : list (string * string)) (content : string) : string :=
  fold_left (fun content item => PyStr.replace (fst item) (snd item) content)
    replacements content.

(** [files] are the files that exist. An exception while reading is
    caught and leaves the file alone. *)
Definition _substitute_claude_md (os : platform) (file_path : string)
    (replacements : list (string * string)) (files : gmap string text_file)
    : gmap string text_file :=
  match files !! file_path with
  | None => files
  | Some f =>
      match Io.read_text f with
      | None => files
      | Some content =>
          let content := substitute replacements content in
          <[file_path := Io.write_text os content]> files
      end
  end.

Definition detect_language (backend_language : option string) : option string :=
  match backend_language with
  | None | Some EmptyString => None
  | Some backend_language =>
      let language_lower := PyStr.lower backend_language in
      if PyStr.contains "python" language_lower then Some "python"
      else if PyStr.contains "c#" language_lower
              || PyStr.contains ".net" language_lower then Some "dotnet"
      else if PyStr.contains "node" language_lower
              || PyStr.contains "javascript" language_lower
              || PyStr.contains "typescript" language_lower then Some "nodejs"
      else if PyStr.contains "go" language_lower
              || PyStr.contains "golang" language_lower then Some "go"
      else None
  end.

Definition detect_frontend_framework (frontend_framework : option string) : option string :=
  match frontend_framework with
  | None | Some EmptyString => None
  | Some frontend_framework =>
      let framework_lower := PyStr.lower frontend_framework in
      if PyStr.contains "react" framework_lower
         || PyStr.contains "next" framework_lower then Some "react"
      else if PyStr.contains "vue" framework_lower
              || PyStr.contains "nuxt" framework_lower then Some "vue"
      else if PyStr.contains "angular" framework_lower then Some "angular"
      else None
  end.

Definition detect_infrastructure_tool (infrastructure_tool : option string) : option string :=
  match infrastructure_tool with
  | None | Some EmptyString => None
  | Some infrastructure_tool =>
      let tool_lower := PyStr.lower infrastructure_tool in
      if PyStr.contains "terraform" tool_lower then Some "terraform"
      else None
  end.

End Install.

Module Setup.

Definition detect_language (backend_language : string) : string :=
  let language_lower := PyStr.lower backend_language in
  if PyStr.contains "python" language_lower then "python"
  else if PyStr.contains "c#" language_lower
          || PyStr.contains ".net" language_lower then "dotnet"
  else if PyStr.contains "node" language_lower
          || PyStr.contains "javascript" language_lower
          || PyStr.contains "typescript" language_lower then "nodejs"
  else if PyStr.contains "go" language_lower
          || PyStr.contains "golang" language_lower then "go"
  else "python".

Definition detect_frontend_framework (frontend_framework : string) : string :=
  let framework_lower := PyStr.lower frontend_framework in
  if PyStr.contains "react" framework_lower
     || PyStr.contains "next" framework_lower then "react"
  else if PyStr.contains "vue" framework_lower
          || PyStr.contains "nuxt" framework_lower then "vue"
  else if PyStr.contains "angular" framework_lower then "angular"
  else "react".

(** [merged_config.setdefault(key, {}).update(frontend_config.get(key, {}))]
    on one of the two object-valued keys: the frontend's items go over
    the ones already there. *)
Definition updated (mine theirs : option (gmap string json)) : option (gmap string json) :=
  Some (default ∅ theirs ∪ default ∅ mine).

Definition overlay (merged_config frontend_config : config) : config :=
  {| agents := updated (agents merged_config) (agents frontend_config);
     settings := updated (settings merged_config) (settings frontend_config);
     sections := sections merged_config |}.

(** Returns what the function returns and the files it leaves. Any
    exception inside the [try] (here: a file that does not parse) is
    caught and gives [False]. *)
Definition merge_agent_configs (backend_language frontend_framework : string)
    (has_frontend : bool) (template_dir : string)
    (files : gmap string config_file) : bool * gmap string config_file :=
  let detected_backend := detect_language backend_language in
  let agents_dir := Py.path_join template_dir ".agents" in
  let backend_config_file :=
    Py.path_join agents_dir ("config_backend_" ++ detected_backend ++ ".json") in
  match files !! backend_config_file with
  | None => (false, files)
  | Some NotAConfig => (false, files)
  | Some (Config merged_config) =>
      let merged :=
        if has_frontend then
          let frontend_lang := detect_frontend_framework frontend_framework in
          let frontend_config_file :=
            Py.path_join agents_dir ("config_frontend_" ++ frontend_lang ++ ".json") in
          match files !! frontend_config_file with
          | None => Some merged_config
          | Some NotAConfig => None
          | Some (Config frontend_config) =>
              Some (overlay merged_config frontend_config)
          end
        else Some merged_config in
      match merged with
      | None => (false, files)
      | Some merged_config =>
          let target := Py.path_join agents_dir "config.json" in
          (true, <[target := Config merged_config]> files)
      end
  end.

(** [key in agent_data] for the key ['system_prompt']: membership in a
    dict, in a list, as a substring of a string; [None] is the
    [TypeError] of a value that is no container. *)
Definition is_system_prompt (v : json) : bool :=
  match v with
  | JStr s => String.eqb s "system_prompt"
  | _ => false
  end.

Definition has_system_prompt (agent_data : json) : option bool :=
  match agent_data with
  | JDict d => Some (existsb (fun item => String.eqb (fst item) "system_prompt") d)
  | JList l => Some (existsb is_system_prompt l)
  | JStr s => Some (PyStr.contains "system_prompt" s)
  | JNull | JBool _ | JNum _ => None
  end.

(** [agent_data['system_prompt'] = agent_data['system_prompt'].replace(
    'Citadel.AI', project_name)] on the items of a dict (whose keys are
    distinct); [None] when the value has no [replace]. *)
Fixpoint rename_in_prompt (project_name : string) (d : list (string * json))
    : option (list (string * json)) :=
  match d with
  | [] => Some []
  | (key, value) :: rest =>
      if String.eqb key "system_prompt" then
        match value with
        | JStr prompt =>
            Some ((key, JStr (PyStr.replace "Citadel.AI" project_name prompt)) :: rest)
        | _ => None
        end
      else
        match rename_in_prompt project_name rest with
        | Some rest' => Some ((key, value) :: rest')
        | None => None
        end
  end.

(** The body of the loop over the agents: the agent as it is left, or
    [None] for an exception. *)
Definition update_agent (project_name : string) (agent_data : json) : option json :=
  match has_system_prompt agent_data with
  | None => None
  | Some false => Some agent_data
  | Some true =>
      match agent_data with
      | JDict d =>
          match rename_in_prompt project_name d with
          | Some d' => Some (JDict d')
          | None => None
          end
      | _ => None
      end
  end.

(** [replacements.get(key, fallback)] *)
Fixpoint get (key fallback : string) (replacements : list (string * string)) : string :=
  match replacements with
  | [] => fallback
  | (k, v) :: rest => if String.eqb k key then v else get key fallback rest
  end.

(** The loop over [config.get('agents', {}).items()]: the agents as they
    are left, or [None] when the body raises for one of them. *)
Definition update_agents (project_name : string) (m : gmap string json)
    : option (gmap string json) :=
  let updated : gmap string (option json) := update_agent project_name <$> m in
  if bool_decide (map_Forall (fun _ a => is_Some a) updated)
  then Some (default JNull <$> updated)
  else None.

(** Any exception inside the [try] is caught, and then nothing has been
    written yet. *)
Definition update_agent_config (config_path : string)
    (replacements : list (string * string)) (files : gmap string config_file)
    : gmap string config_file :=
  match files !! config_path with
  | None => files
  | Some NotAConfig => files
  | Some (Config c) =>
      let project_name := get "{{PROJECT_NAME}}" "YOUR_PROJECT" replacements in
      match agents c with
      | None => <[config_path := Config c]> files
      | Some m =>
          match update_agents project_name m with
          | None => files
          | Some m' =>
              <[config_path :=
                  Config {| agents := Some m';
                            settings := settings c;
                            sections := sections c |}]> files
          end
      end
  end.

Definition replace_in_file (os : platform) (file_path : string)
    (replacements : list (string * string)) (files : gmap string text_file)
    : gmap string text_file :=
  match files !! file_path with
  | None => files
  | Some f =>
      match Io.read_text f with
      | None => files
      | Some content =>
          let content := Install.substitute replacements content in
          <[file_path := Io.write_text os content]> files
      end
  end.

End Setup.

(** One item of a dict after [update]: the other dict's item where it has
    one, else the item that was there. *)
Definition item_after_update (mine theirs : option (gmap string json)) (key : string)
    : option json :=
  match default ∅ theirs !! key with
  | Some v => Some v
  | None => default ∅ mine !! key
  end.

(** Sample configurations. *)
Definition python_config : config :=
  {| agents := Some (<["developer" := JStr "python-developer"]>
                      (<["reviewer" := JStr "backend-code-reviewer"]> ∅));
     settings := None;
     sections := <["workflow" := JStr "backend"]> ∅ |}.

Definition react_config : config :=
  {| agents := Some (<["developer" := JStr "react-frontend-dev"]> ∅);
     settings := Some (<["lint" := JBool true]> ∅);
     sections := <["workflow" := JStr "frontend"]> ∅ |}.

Definition template_files : gmap string config_file :=
  <["/t/.agents/config_frontend_react.json" := Config react_config]>
    (<["/t/.agents/config_backend_python.json" := Config python_config]> ∅).

(** A line with nothing but white space on it. *)
Definition blank (line : string) : Prop := Py.strip line = EmptyString.

(** [after] is the agent [before] with ['Citadel.AI'] replaced in its
    system prompt: a dict whose first item under ['system_prompt'] holds a
    string, everything else in place. *)
Definition renamed_agent (project_name : string) (before after : json) : Prop :=
  exists front prompt back,
    before = JDict (front ++ ("system_prompt", JStr prompt) :: back)
    /\ after = JDict (front
                      ++ ("system_prompt",
                          JStr (PyStr.replace "Citadel.AI" project_name prompt))
                      :: back)
    /\ Forall (fun item => fst item <> "system_prompt") front.

(** * Properties *)

Example isalnum_auth_ui : Create.valid_feature_name "auth-ui" = true.
Proof. reflexivity. Qed.

Example format_0d_7 : Py.format_0d 2 7 = "07".
Proof. reflexivity. Qed.

Example format_0d_123 : Py.format_0d 2 123 = "123".
Proof. reflexivity. Qed.

Example path_parent_repo :
  Py.path_join (Py.path_parent "/home/dev/repo") "worktrees" = "/home/dev/worktrees".
Proof. reflexivity. Qed.

Example strip_branch : Py.strip "  main " = "main".
Proof. reflexivity. Qed.

(** ** Feature names *)

Lemma all_alnum_after_removal s :
  Py.all_alnum (Py.remove_char "_" (Py.remove_char "-" s)) = all_chars allowed_char s.
Proof.
  induction s as [|c s IH]; [reflexivity|].
  cbn [Py.remove_char all_chars].
  unfold allowed_char at 1, hyphen_or_underscore.
  destruct (Ascii.eqb_spec c "-") as [->|Hh]; [exact IH|].
  cbn [Py.remove_char].
  destruct (Ascii.eqb_spec c "_") as [->|Hu]; [exact IH|].
  cbn [Py.all_alnum]. rewrite IH. now rewrite !orb_false_r.
Qed.

Lemma isalnum_split r :
  Py.isalnum r = negb (String.eqb r EmptyString) && Py.all_alnum r.
Proof. destruct r; reflexivity. Qed.

Lemma remainder_nonempty s :
  all_chars allowed_char s = true ->
  negb (String.eqb (Py.remove_char "_" (Py.remove_char "-" s)) EmptyString)
  = any_char Py.char_isalnum s.
Proof.
  induction s as [|c s IH]; [reflexivity|].
  cbn [all_chars any_char Py.remove_char].
  intros [Hc Hs]%andb_true_iff. specialize (IH Hs).
  unfold allowed_char, hyphen_or_underscore in Hc.
  destruct (Ascii.eqb_spec c "-") as [->|Hh]; [exact IH|].
  cbn [Py.remove_char].
  destruct (Ascii.eqb_spec c "_") as [->|Hu]; [exact IH|].
  rewrite !orb_false_r in Hc. now rewrite Hc.
Qed.

Lemma valid_feature_name_char s :
  Create.valid_feature_name s
  = all_chars allowed_char s && any_char Py.char_isalnum s.
Proof.
  unfold Create.valid_feature_name.
  rewrite isalnum_split, all_alnum_after_removal.
  destruct (all_chars allowed_char s) eqn:Hall.
  - rewrite (remainder_nonempty s Hall). now rewrite andb_true_r.
  - now rewrite andb_false_r.
Qed.

Lemma removal_of_hyphens_underscores s :
  all_chars hyphen_or_underscore s = true ->
  Py.remove_char "_" (Py.remove_char "-" s) = EmptyString.
Proof.
  induction s as [|c s IH]; [reflexivity|].
  cbn [all_chars Py.remove_char]. intros [Hc Hs]%andb_true_iff.
  unfold hyphen_or_underscore in Hc.
  destruct (Ascii.eqb_spec c "-") as [->|Hh]; [auto|].
  cbn [Py.remove_char].
  destruct (Ascii.eqb_spec c "_") as [->|Hu]; [auto|discriminate].
Qed.

(** C8, as stated, fails: the one-character name ["-"] contains only
    allowed characters and is turned down all the same. *)
Lemma hyphen_only_allowed_yet_rejected :
  ~ (Create.valid_feature_name "-" = true <-> all_chars allowed_char "-" = true).
Proof. intros [_ H]. discriminate (H eq_refl). Qed.

(** C8 (amended): [main] accepts a feature name exactly when it contains
    only alphanumerics, hyphens and underscores and at least one
    alphanumeric; any other name ends the script with exit status 1 before
    any effect (the world is returned as it was), and an accepted name
    leads on to [create_worktree]. *)
Theorem feature_name_accepted_iff (E : environment) (feature_name : string)
    (rest : list string) (w : world) :
  (Create.valid_feature_name feature_name = true
   <-> all_chars allowed_char feature_name = true
       /\ any_char Py.char_isalnum feature_name = true)
  /\ Create.main E (feature_name :: rest) w
     = if Create.valid_feature_name feature_name
       then bind (Create.create_worktree E feature_name)
              (fun result =>
                 match result with
                 | Some _ => sys_exit 0
                 | None => sys_exit 1
                 end) w
       else (Exited 1, w).
Proof.
  split.
  - rewrite valid_feature_name_char. apply andb_true_iff.
  - unfold Create.main. now destruct (Create.valid_feature_name feature_name).
Qed.

(** C10: a name made of hyphens and underscores only (the empty name
    included) loses every character to the two removals, the empty
    remainder fails [isalnum], and [main] exits with status 1 although
    every character of the name is an allowed one. *)
Theorem hyphen_underscore_names_rejected (E : environment) (feature_name : string)
    (rest : list string) (w : world) :
  all_chars hyphen_or_underscore feature_name = true ->
  Py.remove_char "_" (Py.remove_char "-" feature_name) = EmptyString
  /\ Py.isalnum EmptyString = false
  /\ all_chars allowed_char feature_name = true
  /\ Create.main E (feature_name :: rest) w = (Exited 1, w)
  /\ exit_status (fst (Create.main E (feature_name :: rest) w)) <> 0.
Proof.
  intros H. pose proof (removal_of_hyphens_underscores _ H) as Hr.
  assert (Hmain : Create.main E (feature_name :: rest) w = (Exited 1, w)).
  { unfold Create.main, Create.valid_feature_name. now rewrite Hr. }
  repeat split; try assumption.
  - clear -H. induction feature_name as [|c s IH]; [reflexivity|].
    cbn [all_chars] in *. apply andb_true_iff in H as [Hc Hs].
    unfold allowed_char. rewrite Hc, orb_true_r. now apply IH.
  - now rewrite Hmain.
Qed.

(** ** Identifiers *)

Lemma decimal_digits_longer fuel : forall n acc,
  (String.length acc < String.length (Py.decimal_digits fuel n acc))%nat.
Proof.
  induction fuel as [|fuel IH]; intros n acc; cbn [Py.decimal_digits].
  - cbn. lia.
  - destruct (Nat.ltb n 10); [cbn; lia|].
    specialize (IH (n / 10)%nat (String (Py.digit_char (n mod 10)) acc)).
    cbn [String.length] in IH. lia.
Qed.

Lemma str_of_nat_one_digit n :
  (n < 10)%nat -> Py.str_of_nat n = String (Py.digit_char n) EmptyString.
Proof.
  intros Hn. unfold Py.str_of_nat.
  destruct n as [|n]; [reflexivity|].
  cbn [Py.decimal_digits].
  apply Nat.ltb_lt in Hn as Hn'. rewrite Hn'.
  now rewrite Nat.mod_small.
Qed.

Lemma str_of_nat_two_digits n :
  (10 <= n)%nat -> (2 <= String.length (Py.str_of_nat n))%nat.
Proof.
  intros Hn. unfold Py.str_of_nat.
  destruct n as [|n]; [lia|].
  cbn [Py.decimal_digits].
  apply Nat.ltb_ge in Hn as Hn'. rewrite Hn'.
  pose proof (decimal_digits_longer n (S n / 10)
                (String (Py.digit_char (S n mod 10)) EmptyString)) as H.
  cbn [String.length] in H. lia.
Qed.

Lemma format_0d_2 n :
  Py.format_0d 2 n
  = if Nat.ltb n 10 then String "0" (String (Py.digit_char n) EmptyString) else Py.str_of_nat n.
Proof.
  unfold Py.format_0d. destruct (Nat.ltb n 10) eqn:Hn.
  - apply Nat.ltb_lt in Hn. now rewrite (str_of_nat_one_digit n Hn).
  - apply Nat.ltb_ge in Hn. pose proof (str_of_nat_two_digits n Hn) as Hl.
    replace (2 - String.length (Py.str_of_nat n))%nat with 0%nat by lia.
    reflexivity.
Qed.

Lemma code_digit_char d : (d < 10)%nat -> (Py.code (Py.digit_char d) - 48)%nat = d.
Proof.
  intros Hd. unfold Py.code, Py.digit_char.
  rewrite nat_ascii_embedding; lia.
Qed.

Lemma value_of_digits_app acc s :
  value_of_digits acc s = (acc * 10 ^ String.length s + value_of_digits 0 s)%nat.
Proof.
  revert acc. induction s as [|c s IH]; intros acc; cbn [value_of_digits String.length].
  - cbn. lia.
  - rewrite IH. rewrite (IH (0 * 10 + _)%nat). rewrite Nat.pow_succ_r'. lia.
Qed.

Lemma value_of_decimal_digits fuel : forall n acc,
  (n <= fuel)%nat ->
  value_of_digits 0 (Py.decimal_digits fuel n acc)
  = (n * 10 ^ String.length acc + value_of_digits 0 acc)%nat.
Proof.
  assert (Hstep : forall n acc,
    value_of_digits 0 (String (Py.digit_char (n mod 10)) acc)
    = ((n mod 10) * 10 ^ String.length acc + value_of_digits 0 acc)%nat).
  { intros n acc. cbn [value_of_digits].
    rewrite code_digit_char by (apply Nat.mod_upper_bound; lia).
    rewrite value_of_digits_app. lia. }
  induction fuel as [|fuel IH]; intros n acc Hn; cbn [Py.decimal_digits].
  - rewrite Hstep. replace n with 0%nat by lia. reflexivity.
  - destruct (Nat.ltb n 10) eqn:Hlt.
    + apply Nat.ltb_lt in Hlt. rewrite Hstep. now rewrite Nat.mod_small.
    + apply Nat.ltb_ge in Hlt. rewrite IH.
      * rewrite Hstep. cbn [String.length]. rewrite Nat.pow_succ_r'.
        pose proof (Nat.div_mod_eq n 10). nia.
      * pose proof (Nat.div_lt n 10). lia.
Qed.

Lemma value_of_str_of_nat n : value_of_digits 0 (Py.str_of_nat n) = n.
Proof.
  unfold Py.str_of_nat. rewrite value_of_decimal_digits by lia. cbn. lia.
Qed.

Lemma value_of_format_0d_2 n : value_of_digits 0 (Py.format_0d 2 n) = n.
Proof.
  rewrite format_0d_2. destruct (Nat.ltb n 10) eqn:Hn.
  - apply Nat.ltb_lt in Hn. cbn [value_of_digits].
    rewrite code_digit_char by assumption.
    change (Py.code "0"%char) with 48%nat. lia.
  - apply value_of_str_of_nat.
Qed.

Lemma length_format_0d_2 n : (2 <= String.length (Py.format_0d 2 n))%nat.
Proof.
  rewrite format_0d_2. destruct (Nat.ltb n 10) eqn:Hn.
  - cbn. lia.
  - apply Nat.ltb_ge in Hn. now apply str_of_nat_two_digits.
Qed.

Lemma next_id_twice (w : world) :
  (id1 <- next_id ;; id2 <- next_id ;; ret (id1, id2))%script w
  = (id1 <- next_id ;; ret (id1, id1))%script w.
Proof.
  unfold next_id, bind, load_registry, ret.
  destruct w as [f h]; cbn. destruct f; reflexivity.
Qed.

(** C5: [generate_worktree_id] returns ["worktree-"] followed by the
    decimal numeral of [len(registry) + 1], left-padded with a zero to two
    characters; the result depends on the size of the registry only, so
    deriving it twice with no save in between gives the same identifier
    twice; and there is a registry that, once an entry has been removed
    from it, gets an identifier it already holds. *)
Theorem generate_worktree_id_spec :
  (forall reg : registry,
     let counter := (size reg + 1)%nat in
     exists nn,
       Create.generate_worktree_id reg = "worktree-" ++ nn
       /\ value_of_digits 0 nn = counter
       /\ (2 <= String.length nn)%nat
       /\ nn = (if Nat.ltb counter 10
                then String "0" (Py.str_of_nat counter)
                else Py.str_of_nat counter))
  /\ (forall reg1 reg2 : registry,
        size reg1 = size reg2 ->
        Create.generate_worktree_id reg1 = Create.generate_worktree_id reg2)
  /\ (forall w : world,
        (id1 <- next_id ;; id2 <- next_id ;; ret (id1, id2))%script w
        = (id1 <- next_id ;; ret (id1, id1))%script w)
  /\ (exists (reg : registry) (removed : string),
        is_Some (reg !! removed)
        /\ is_Some (delete removed reg
                      !! Create.generate_worktree_id (delete removed reg))).
Proof.
  split; [|split; [|split]].
  - intros reg counter. exists (Py.format_0d 2 counter).
    split; [reflexivity|]. split; [apply value_of_format_0d_2|].
    split; [apply length_format_0d_2|].
    rewrite format_0d_2. destruct (Nat.ltb counter 10) eqn:Hn; [|reflexivity].
    apply Nat.ltb_lt in Hn. now rewrite str_of_nat_one_digit.
  - intros reg1 reg2 Hsize. unfold Create.generate_worktree_id. now rewrite Hsize.
  - apply next_id_twice.
  - exists two_entries, "worktree-01". split; vm_compute; eexists; reflexivity.
Qed.

(** ** Running the scripts *)

Ltac unfold_script :=
  cbv [Create.main Create.create_worktree Create.get_current_branch
       Create.get_repo_root Merge.main Merge.merge_worktree
       Cleanup.main Cleanup.cleanup_worktree Cleanup.cleanup_docker
       CheckPrStatus.main CheckPrStatus.check_pr_status
       bind ret sys_exit raise emit try_except
       subprocess_run_check subprocess_run exists_ mkdir rmtree
       datetime_now_isoformat load_registry save_registry
       get_worktree_info log_event file history fst snd].

Lemma registry_with_entry_not_empty (reg : registry) k v :
  reg !! k = Some v -> empty_dict reg = false.
Proof.
  intros Hk. unfold empty_dict. apply Nat.eqb_neq.
  intros H0. apply map_size_empty_iff in H0. subst reg.
  rewrite lookup_empty in Hk. discriminate.
Qed.

(** ** Loading the registry *)

Lemma load_registry_malformed_propagates {A} (k : registry -> M A) (w : world) :
  file w = Malformed -> bind load_registry k w = (Raised JSONDecodeError, w).
Proof. intros H. unfold bind, load_registry. now rewrite H. Qed.

Lemma create_worktree_malformed (E : environment) (feature_name : string) (w : world) :
  file w = Malformed ->
  file (snd (Create.main E [feature_name] w)) = Malformed
  /\ fst (Create.main E [feature_name] w) <> Exited 0.
Proof.
  destruct w as [f h]. cbn [file]. intros ->. unfold_script.
  repeat match goal with
         | |- context [if ?b then _ else _] => destruct b
         | |- context [match spawn ?X ?Y ?Z with _ => _ end] => destruct (spawn X Y Z)
         end; cbn; split; congruence.
Qed.

(** C9: with no registry file [load_registry] returns the empty mapping
    and leaves the world alone; with a file that does not parse it raises
    [JSONDecodeError], whatever the caller would do next is skipped, and no
    script catches it: merge, cleanup and the status check end on that
    exception at once, and create, which loads only after the worktree has
    been added, ends on it too and never reports success. *)
Theorem load_registry_missing_or_malformed (E : environment) (h : list event)
    (worktree_id feature_name : string) :
  let missing := {| file := NoFile; history := h |} in
  let broken := {| file := Malformed; history := h |} in
  load_registry missing = (Returned ∅, missing)
  /\ load_registry broken = (Raised JSONDecodeError, broken)
  /\ (forall A (k : registry -> M A),
        bind load_registry k broken = (Raised JSONDecodeError, broken))
  /\ Merge.main E [worktree_id] broken = (Raised JSONDecodeError, broken)
  /\ Cleanup.main E [worktree_id] broken = (Raised JSONDecodeError, broken)
  /\ CheckPrStatus.main E [worktree_id] broken = (Raised JSONDecodeError, broken)
  /\ file (snd (Create.main E [feature_name] broken)) = Malformed
  /\ fst (Create.main E [feature_name] broken) <> Exited 0
  /\ fst (Create.main (calm "OPEN") ["auth-ui"] (start Malformed))
     = Raised JSONDecodeError.
Proof.
  intros missing broken.
  repeat split; try reflexivity.
  - now apply create_worktree_malformed.
  - now apply create_worktree_malformed.
Qed.

(** ** The status check *)

Ltac simpl_script :=
  cbv beta iota zeta
      delta [except_CalledProcessError except_Exception
             except_CalledProcessError_or_FileNotFoundError
             fst snd file history returncode stdout negb andb orb].

Lemma check_main_contract (E : environment) (w : world) (worktree_id : string)
    (reg : registry) (info : worktree_info) :
  file w = Stored reg ->
  reg !! worktree_id = Some info ->
  match wt_pr info with
  | None => CheckPrStatus.main E [worktree_id] w = (Exited 2, w)
  | Some pr =>
      if CheckPrStatus.empty_pr pr
      then CheckPrStatus.main E [worktree_id] w = (Exited 2, w)
      else forall q,
          observe_query E (history w) (pr_number pr) = Some q ->
          CheckPrStatus.main E [worktree_id] w
          = (Exited (contract_exit_code q),
             log_event (Exec (GhPrView (pr_number pr))) w)
  end.
Proof.
  intros Hfile Hinfo.
  pose proof (registry_with_entry_not_empty _ _ _ Hinfo) as Hne.
  destruct w as [f h]. cbn [file] in Hfile. subst f.
  destruct (wt_pr info) as [pr|] eqn:Hpr.
  - destruct (CheckPrStatus.empty_pr pr) eqn:Hempty.
    + unfold_script. rewrite Hne, Hinfo, Hpr, Hempty. cbn. now rewrite Hinfo.
    + intros q Hq. unfold observe_query in Hq. cbn [history] in Hq.
      unfold_script. rewrite Hne, Hinfo, Hpr, Hempty.
      destruct (spawn E h (GhPrView (pr_number pr))) as [|r]; [discriminate|].
      destruct (returncode r =? 0).
      * destruct (json_loads E (stdout r)) as [|[state|] merged_at];
          try discriminate.
        injection Hq as <-. cbn [fst]. rewrite Hinfo.
        unfold contract_exit_code.
        destruct (String.eqb_spec state "MERGED") as [->|H1]; [reflexivity|].
        destruct (String.eqb_spec state "OPEN") as [->|H2]; [reflexivity|].
        destruct (String.eqb state "CLOSED");
          repeat (destruct state as [|[[] [] [] [] [] [] [] []] state];
                  try reflexivity; try congruence).
      * injection Hq as <-. cbn. rewrite Hinfo. reflexivity.
  - unfold_script. rewrite Hne, Hinfo, Hpr. cbn. now rewrite Hinfo.
Qed.

Lemma check_main_crash (E : environment) (w : world) (worktree_id : string)
    (reg : registry) (info : worktree_info) (pr : pr_info) :
  file w = Stored reg ->
  reg !! worktree_id = Some info ->
  wt_pr info = Some pr ->
  CheckPrStatus.empty_pr pr = false ->
  observe_query E (history w) (pr_number pr) = None ->
  exists e,
    CheckPrStatus.main E [worktree_id] w
    = (Raised e, log_event (Exec (GhPrView (pr_number pr))) w).
Proof.
  intros Hfile Hinfo Hpr Hempty Hq.
  pose proof (registry_with_entry_not_empty _ _ _ Hinfo) as Hne.
  destruct w as [f h]. cbn [file history] in *. subst f.
  unfold observe_query in Hq. unfold_script.
  rewrite Hne, Hinfo, Hpr, Hempty.
  destruct (spawn E h (GhPrView (pr_number pr))) as [|[rc out]];
    simpl_script; [eexists; reflexivity|].
  cbn [returncode stdout] in Hq.
  destruct (rc =? 0); [|discriminate].
  destruct (json_loads E out) as [|[state|] merged_at]; try discriminate;
    simpl_script; eexists; reflexivity.
Qed.

Lemma check_main_without_entry (E : environment) (w : world) (worktree_id : string) :
  match file w with
  | NoFile => True
  | Malformed => False
  | Stored reg => reg !! worktree_id = None
  end ->
  CheckPrStatus.main E [worktree_id] w = (Exited 2, w).
Proof.
  destruct w as [f h]. cbn [file]. unfold_script.
  destruct f as [| |reg]; [reflexivity|contradiction|].
  intros Hnone. rewrite Hnone.
  destruct (empty_dict reg); cbn; now rewrite Hnone.
Qed.



(** ** Merge *)

Ltac case_git Hgit :=
  simpl_script;
  match goal with
  | |- context [spawn ?E ?h ?c] =>
      let Hs := fresh "Hs" in
      let rc := fresh "rc" in
      let out := fresh "out" in
      destruct (spawn E h c) as [|[rc out]] eqn:Hs;
      [ exfalso; exact (Hgit h c eq_refl Hs)
      | simpl_script; destruct (rc =? 0) eqn:?; simpl_script ]
  end.

(** C3: with the entry in the registry, merge ends in exactly one of three
    ways, decided by the checkout of the stored base branch and by the
    merge command alone. Both succeed: the entry's status becomes
    ['merged'] (the status stored afterwards is ['merged'], every other
    key of the entry and every other entry as before), the registry is
    written, the script returns. The checkout fails, or the merge fails
    (a conflict): exit status 1, the registry file as it was and never
    written, so the stored status is the one from before. What pull and
    push report changes none of this: their failure is a warning. *)
Theorem merge_marks_merged_iff (E : environment) (w : world) (worktree_id : string)
    (reg : registry) (info : worktree_info) :
  git_installed E ->
  file w = Stored reg ->
  reg !! worktree_id = Some info ->
  let base_branch := wt_base_branch info in
  let feature_branch := wt_branch info in
  let checkout := GitCheckout base_branch in
  let pull := GitPullOrigin base_branch in
  let merge :=
    GitMergeNoFf feature_branch
      ("Merge " ++ feature_branch ++ " into " ++ base_branch) in
  let push := GitPushOrigin base_branch in
  let h1 := Exec checkout :: history w in
  let h2 := Exec pull :: h1 in
  let h3 := Exec merge :: h2 in
  let merged := <[worktree_id := set_status info "merged"]> reg in
  let after := snd (Merge.main E [worktree_id] w) in
  Merge.main E [worktree_id] w
  = (if succeeds E (history w) checkout && succeeds E h2 merge
     then (Returned tt,
           {| file := Stored merged; history := Wrote merged :: Exec push :: h3 |})
     else (Exited 1,
           {| file := Stored reg;
              history := if succeeds E (history w) checkout then h3 else h1 |}))
  /\ stored_status (file after) worktree_id
     = (if succeeds E (history w) checkout && succeeds E h2 merge
        then Some "merged" else Some (wt_status info))
  /\ (forall stored,
        merged !! worktree_id = Some stored ->
        wt_status stored = "merged"
        /\ wt_id stored = wt_id info
        /\ wt_feature_name stored = wt_feature_name info
        /\ wt_path stored = wt_path info
        /\ wt_branch stored = wt_branch info
        /\ wt_base_branch stored = wt_base_branch info
        /\ wt_created stored = wt_created info
        /\ wt_pr stored = wt_pr info)
  /\ (forall other, other <> worktree_id -> merged !! other = reg !! other).
Proof.
  intros Hgit Hfile Hinfo.
  pose proof (registry_with_entry_not_empty _ _ _ Hinfo) as Hne.
  cbv zeta.
  set (merged := <[worktree_id := set_status info "merged"]> reg).
  assert (Hrun : Merge.main E [worktree_id] w
    = (if succeeds E (history w) (GitCheckout (wt_base_branch info))
          && succeeds E
               (Exec (GitPullOrigin (wt_base_branch info))
                :: Exec (GitCheckout (wt_base_branch info)) :: history w)
               (GitMergeNoFf (wt_branch info)
                  ("Merge " ++ wt_branch info ++ " into " ++ wt_base_branch info))
       then (Returned tt,
             {| file := Stored merged;
                history :=
                  Wrote merged
                  :: Exec (GitPushOrigin (wt_base_branch info))
                  :: Exec (GitMergeNoFf (wt_branch info)
                             ("Merge " ++ wt_branch info ++ " into "
                              ++ wt_base_branch info))
                  :: Exec (GitPullOrigin (wt_base_branch info))
                  :: Exec (GitCheckout (wt_base_branch info)) :: history w |})
       else (Exited 1,
             {| file := Stored reg;
                history :=
                  if succeeds E (history w) (GitCheckout (wt_base_branch info))
                  then Exec (GitMergeNoFf (wt_branch info)
                               ("Merge " ++ wt_branch info ++ " into "
                                ++ wt_base_branch info))
                       :: Exec (GitPullOrigin (wt_base_branch info))
                       :: Exec (GitCheckout (wt_base_branch info)) :: history w
                  else Exec (GitCheckout (wt_base_branch info)) :: history w |}))).
  { subst merged. destruct w as [f h]. cbn [file] in Hfile. subst f.
    unfold succeeds. unfold_script. rewrite Hne, Hinfo.
    case_git Hgit; [|reflexivity].
    case_git Hgit; (case_git Hgit; [|reflexivity]);
      (case_git Hgit; reflexivity). }
  split; [exact Hrun|]. split; [|split].
  - rewrite Hrun.
    destruct (succeeds E (history w) (GitCheckout (wt_base_branch info))
              && succeeds E _ _); cbn [snd file stored_status].
    + subst merged. now rewrite lookup_insert_eq.
    + now rewrite Hinfo.
  - intros stored Hstored. subst merged. rewrite lookup_insert_eq in Hstored.
    injection Hstored as <-. repeat split.
  - intros other Hother. subst merged. now rewrite lookup_insert_ne.
Qed.

(** ** Cleanup *)

Ltac case_env Hgit :=
  simpl_script;
  match goal with
  | |- context [spawn ?E ?h ?c] =>
      let Hs := fresh "Hs" in
      let rc := fresh "rc" in
      let out := fresh "out" in
      destruct (spawn E h c) as [|[rc out]] eqn:Hs;
      [ try (exfalso; exact (Hgit h c eq_refl Hs))
      | simpl_script; destruct (rc =? 0) eqn:? ]
  | |- context [path_exists ?E ?h ?p] => destruct (path_exists E h p) eqn:?
  | |- context [rmtree_ok ?E ?h ?p] => destruct (rmtree_ok E h p) eqn:?
  | |- context [mkdir_ok ?E ?h ?p] => destruct (mkdir_ok E h p) eqn:?
  end;
  simpl_script.

Ltac solve_grows :=
  repeat first [ apply grows_done | apply grows_step; [cbn; try reflexivity; try exact I|] ].

Lemma set_status_twice info s1 s2 :
  set_status (set_status info s1) s2 = set_status info s2.
Proof. reflexivity. Qed.

Lemma cleanup_returns (E : environment) (w : world) (worktree_id : string)
    (reg : registry) (info : worktree_info) :
  git_installed E ->
  file w = Stored reg ->
  reg !! worktree_id = Some info ->
  let cleaned := <[worktree_id := set_status info "cleaned_up"]> reg in
  exists h,
    Cleanup.main E [worktree_id] w
    = (Returned tt, {| file := Stored cleaned; history := Wrote cleaned :: h |})
    /\ grows removal_step (history w) h.
Proof.
  intros Hgit Hfile Hinfo.
  pose proof (registry_with_entry_not_empty _ _ _ Hinfo) as Hne.
  destruct w as [f h]. cbn [file] in Hfile. subst f.
  cbv zeta. unfold_script. rewrite Hne, Hinfo.
  repeat case_env Hgit; (eexists; split; [reflexivity|solve_grows]).
Qed.

(** C4: with the entry in the registry, cleanup returns with the entry's
    status set to ['cleaned_up'] and the registry written as its last
    effect, whatever the docker teardown, the worktree removal, the branch
    deletions and the checkout reported; run again on the result it
    returns again (nothing is raised, no exit) and leaves the registry
    file exactly as the first run did, status ['cleaned_up']. *)
Theorem cleanup_always_marks_cleaned_up (E : environment) (w : world)
    (worktree_id : string) (reg : registry) (info : worktree_info) :
  git_installed E ->
  file w = Stored reg ->
  reg !! worktree_id = Some info ->
  let cleaned := <[worktree_id := set_status info "cleaned_up"]> reg in
  exists w1 w2 h1 h2,
    Cleanup.main E [worktree_id] w = (Returned tt, w1)
    /\ w1 = {| file := Stored cleaned; history := Wrote cleaned :: h1 |}
    /\ Cleanup.main E [worktree_id] w1 = (Returned tt, w2)
    /\ w2 = {| file := Stored cleaned; history := Wrote cleaned :: h2 |}
    /\ wt_status <$> cleaned !! worktree_id = Some "cleaned_up".
Proof.
  intros Hgit Hfile Hinfo cleaned.
  destruct (cleanup_returns E w worktree_id reg info Hgit Hfile Hinfo)
    as [h1 [H1 _]].
  set (w1 := {| file := Stored cleaned; history := Wrote cleaned :: h1 |}).
  assert (Hin1 : cleaned !! worktree_id = Some (set_status info "cleaned_up"))
    by apply lookup_insert_eq.
  destruct (cleanup_returns E w1 worktree_id cleaned _ Hgit eq_refl Hin1)
    as [h2 [H2 _]].
  assert (Hsame : <[worktree_id := set_status (set_status info "cleaned_up") "cleaned_up"]> cleaned
                  = cleaned).
  { rewrite set_status_twice. unfold cleaned. apply insert_insert_eq. }
  cbv zeta in H2. rewrite Hsame in H2.
  exists w1, {| file := Stored cleaned; history := Wrote cleaned :: h2 |}, h1, h2.
  repeat split; try assumption. now rewrite Hin1.
Qed.

(** ** Create *)

Lemma create_outcome (E : environment) (feature_name : string) (w : world) :
  let o := fst (Create.main E [feature_name] w) in
  let w' := snd (Create.main E [feature_name] w) in
  (o = Exited 0
   /\ exists reg info,
       loaded (file w) reg
       /\ file w' = Stored (<[Create.generate_worktree_id reg := info]> reg)
       /\ (exists h, history w' = Wrote (<[Create.generate_worktree_id reg := info]> reg) :: h)
       /\ wt_id info = Create.generate_worktree_id reg
       /\ wt_feature_name info = feature_name
       /\ wt_branch info = "feature/" ++ feature_name
       /\ wt_status info = "active"
       /\ wt_pr info = None
       /\ exists r, spawn E (history w) GitRevParseAbbrevRefHead = Ran r
                    /\ wt_base_branch info = Py.strip (stdout r))
  \/ (exit_status o <> 0 /\ file w' = file w
      /\ grows not_a_write (history w) (history w')).
Proof.
  destruct w as [f h]. cbv zeta. unfold Create.main.
  destruct (Create.valid_feature_name feature_name); cbn [negb];
    [|right; cbn; repeat split; [lia|constructor]].
  unfold_script.
  destruct (spawn E h GitRevParseAbbrevRefHead) as [|[rc out]] eqn:Hhead;
    simpl_script;
    [right; cbn; repeat split; [lia|repeat constructor]|].
  destruct (rc =? 0); simpl_script;
    [|right; cbn; repeat split; [lia|repeat constructor]].
  repeat case_env I;
    try (right; cbn; repeat split; [lia|repeat constructor]).
  destruct f as [| |reg]; simpl_script;
    try (right; cbn; repeat split; [lia|repeat constructor]).
  - left. split; [reflexivity|]. eexists ∅, _. cbn.
    repeat split; try reflexivity; eauto.
  - left. split; [reflexivity|]. eexists reg, _. cbn.
    repeat split; try reflexivity; eauto.
Qed.

(** C2 at a registry that has lost an entry: [two_entries] without
    ["worktree-01"] still holds ["worktree-02"]; create derives
    ["worktree-02"] again from the size, reports success, and the registry
    it writes holds one entry, the new one: the entry of the billing
    worktree has been overwritten, nothing was appended. *)
Theorem create_reuses_identifier_after_removal :
  let before := delete "worktree-01" two_entries in
  let run := Create.main (calm "OPEN") ["auth-ui"] (start (Stored before)) in
  before !! "worktree-02" = Some billing
  /\ Create.valid_feature_name "auth-ui" = true
  /\ Create.generate_worktree_id before = "worktree-02"
  /\ fst run = Exited 0
  /\ exists info,
       file (snd run) = Stored (<["worktree-02" := info]> ∅)
       /\ wt_feature_name info = "auth-ui"
       /\ wt_status info = "active"
       /\ info <> billing
       /\ size (<["worktree-02" := info]> (∅ : registry)) = size before.
Proof.
  cbv zeta. split; [reflexivity|]. split; [reflexivity|].
  split; [reflexivity|]. split; [reflexivity|].
  eexists. split; [vm_compute; reflexivity|].
  repeat split; try reflexivity. discriminate.
Qed.

(** ** What the scripts leave of the registry *)

Lemma same_but_status_refl a : same_but_status a a.
Proof. repeat split. Qed.

Lemma same_but_status_set a s : same_but_status a (set_status a s).
Proof. repeat split. Qed.

Lemma touches_refl worktree_id f : touches_only_status worktree_id f f.
Proof.
  destruct f as [| |reg]; cbn; try reflexivity.
  intros id. destruct (reg !! id); [|exact I].
  split; [apply same_but_status_refl|reflexivity].
Qed.

Lemma touches_insert worktree_id (reg : registry) info s :
  reg !! worktree_id = Some info ->
  touches_only_status worktree_id (Stored reg)
    (Stored (<[worktree_id := set_status info s]> reg)).
Proof.
  intros Hinfo id. destruct (decide (id = worktree_id)) as [->|Hne].
  - rewrite Hinfo, lookup_insert_eq.
    split; [apply same_but_status_set|congruence].
  - rewrite lookup_insert_ne by congruence.
    destruct (reg !! id); [|exact I].
    split; [apply same_but_status_refl|reflexivity].
Qed.

Lemma touches_keeps worktree_id f f' :
  touches_only_status worktree_id f f' -> keeps_entries f f'.
Proof.
  intros H reg ->. destruct f' as [| |reg']; cbn in H; try discriminate.
  exists reg'. split; [reflexivity|]. intros id [a Ha].
  specialize (H id). rewrite Ha in H. destruct (reg' !! id); [eauto|contradiction].
Qed.

Lemma keeps_refl f : keeps_entries f f.
Proof. intros reg ->. exists reg. split; [reflexivity|auto]. Qed.

Lemma merge_effect (E : environment) (worktree_id : string) (w : world) :
  let w' := snd (Merge.main E [worktree_id] w) in
  touches_only_status worktree_id (file w) (file w')
  /\ grows (uses_base_branch (stored_base_branch (file w) worktree_id))
       (history w) (history w').
Proof.
  destruct w as [f h]. cbv zeta. unfold_script.
  destruct f as [| |reg]; simpl_script;
    try (split; [apply touches_refl|solve_grows]).
  destruct (empty_dict reg); simpl_script;
    try (split; [apply touches_refl|solve_grows]).
  unfold stored_base_branch.
  destruct (reg !! worktree_id) as [info|] eqn:Hinfo; simpl_script;
    try (split; [apply touches_refl|solve_grows]).
  cbn [fmap option_fmap option_map].
  repeat case_env I;
    (split; [first [apply touches_refl | now apply touches_insert]|solve_grows]).
Qed.

Lemma cleanup_effect (E : environment) (worktree_id : string) (w : world) :
  let w' := snd (Cleanup.main E [worktree_id] w) in
  touches_only_status worktree_id (file w) (file w')
  /\ grows (uses_base_branch (stored_base_branch (file w) worktree_id))
       (history w) (history w').
Proof.
  destruct w as [f h]. cbv zeta. unfold_script.
  destruct f as [| |reg]; simpl_script;
    try (split; [apply touches_refl|solve_grows]).
  destruct (empty_dict reg); simpl_script;
    try (split; [apply touches_refl|solve_grows]).
  unfold stored_base_branch.
  destruct (reg !! worktree_id) as [info|] eqn:Hinfo; simpl_script;
    try (split; [apply touches_refl|solve_grows]).
  cbn [fmap option_fmap option_map].
  repeat case_env I;
    (split; [first [apply touches_refl | now apply touches_insert]|solve_grows]).
Qed.

Lemma check_leaves_file (E : environment) (argv : list string) (w : world) :
  file (snd (CheckPrStatus.main E argv w)) = file w.
Proof.
  destruct w as [f h]. destruct argv as [|worktree_id argv]; [reflexivity|].
  unfold_script.
  destruct f as [| |reg]; simpl_script; try reflexivity.
  destruct (reg !! worktree_id) as [info|] eqn:Hinfo; simpl_script;
    [|destruct (empty_dict reg); simpl_script; rewrite ?Hinfo; reflexivity].
  destruct (empty_dict reg); simpl_script; rewrite ?Hinfo;
    [reflexivity|].
  destruct (wt_pr info) as [pr|]; simpl_script; rewrite ?Hinfo;
    [|reflexivity].
  destruct (CheckPrStatus.empty_pr pr); simpl_script; rewrite ?Hinfo;
    [reflexivity|].
  case_env I; rewrite ?Hinfo; simpl_script; try reflexivity.
  destruct (json_loads E _) as [|[state|] merged_at]; simpl_script;
    rewrite ?Hinfo; simpl_script; try reflexivity.
  repeat match goal with
         | |- context [if ?b then _ else _] => destruct b
         end; reflexivity.
Qed.

(** ** The polling loop *)

Lemma poll_loop_step (E : environment) (fuel : nat) (worktree_id : string)
    (seconds : Z) (w : world) :
  0 <= seconds <= sleep_max E ->
  PollPr.poll_loop E (S fuel) worktree_id seconds w
  = let check := CheckPrStatus.main E [worktree_id] w in
    let returncode := exit_status (fst check) in
    let w1 := snd check in
    if returncode =? 0 then
      let cleanup := Cleanup.main E [worktree_id] w1 in
      (Some (Exited (if exit_status (fst cleanup) =? 0 then 0 else 1)),
       snd cleanup)
    else if returncode =? 1 then
      PollPr.poll_loop E fuel worktree_id seconds (log_event (Slept seconds) w1)
    else (Some (Exited 1), w1).
Proof.
  intros [Hlo Hhi]. cbn [PollPr.poll_loop]. cbv zeta.
  unfold PollPr.poll_once, PollPr.run_script, bind, time_sleep, sys_exit,
    raise, emit.
  destruct (CheckPrStatus.main E [worktree_id] w) as [o w1]. cbn [fst snd].
  destruct (exit_status o =? 0).
  - destruct (Cleanup.main E [worktree_id] w1) as [o2 w2]. cbn [fst snd].
    now destruct (exit_status o2 =? 0).
  - destruct (exit_status o =? 1); [|reflexivity].
    apply Z.ltb_ge in Hlo. rewrite Hlo.
    assert (Hhi' : (sleep_max E <? seconds) = false) by (apply Z.ltb_ge; lia).
    now rewrite Hhi'.
Qed.

Lemma sleeps_after_open_polls n number seconds : forall w,
  sleeps (history (after_open_polls n number seconds w))
  = (sleeps (history w) ++ repeat seconds n)%list.
Proof.
  induction n as [|n IH]; intros w; cbn [after_open_polls repeat].
  - now rewrite app_nil_r.
  - rewrite IH. cbn. now rewrite <- app_assoc.
Qed.

Lemma file_after_open_polls n number seconds : forall w,
  file (after_open_polls n number seconds w) = file w.
Proof. induction n as [|n IH]; intros w; cbn; [reflexivity|now rewrite IH]. Qed.

Lemma poll_while_open (E : environment) (worktree_id : string) (seconds : Z)
    (reg : registry) (info : worktree_info) (pr : pr_info) :
  0 <= seconds <= sleep_max E ->
  reg !! worktree_id = Some info ->
  wt_pr info = Some pr ->
  CheckPrStatus.empty_pr pr = false ->
  (forall h, observe_query E h (pr_number pr) = Some (QueryState "OPEN")) ->
  forall fuel w,
    file w = Stored reg ->
    PollPr.poll_loop E fuel worktree_id seconds w
    = (None, after_open_polls fuel (pr_number pr) seconds w).
Proof.
  intros Hsec Hinfo Hpr Hempty Hopen fuel.
  induction fuel as [|fuel IH]; intros w Hfile; [reflexivity|].
  rewrite poll_loop_step by assumption.
  pose proof (check_main_contract E w worktree_id reg info Hfile Hinfo) as Hc.
  rewrite Hpr, Hempty in Hc. rewrite (Hc _ (Hopen (history w))).
  cbn [fst snd contract_exit_code exit_status Z.eqb Pos.eqb]. cbv zeta.
  rewrite IH by assumption. reflexivity.
Qed.

Lemma poll_open_open_merged (E : environment) (worktree_id : string) (seconds : Z)
    (w : world) (reg : registry) (info : worktree_info) (pr : pr_info) :
  0 <= seconds <= sleep_max E ->
  git_installed E ->
  file w = Stored reg ->
  reg !! worktree_id = Some info ->
  wt_pr info = Some pr ->
  CheckPrStatus.empty_pr pr = false ->
  let query := Exec (GhPrView (pr_number pr)) in
  let h1 := Slept seconds :: query :: history w in
  let h2 := Slept seconds :: query :: h1 in
  let cleaned := <[worktree_id := set_status info "cleaned_up"]> reg in
  observe_query E (history w) (pr_number pr) = Some (QueryState "OPEN") ->
  observe_query E h1 (pr_number pr) = Some (QueryState "OPEN") ->
  observe_query E h2 (pr_number pr) = Some (QueryState "MERGED") ->
  exists h,
    forall fuel,
    PollPr.poll_loop E (S (S (S fuel))) worktree_id seconds w
    = (Some (Exited 0),
       {| file := Stored cleaned; history := Wrote cleaned :: h |})
    /\ grows removal_step (query :: h2) h.
Proof.
  intros Hsec Hgit Hfile Hinfo Hpr Hempty query h1 h2 cleaned Ho1 Ho2 Ho3.
  destruct w as [f h0]. cbn [file history] in *. subst f query h1 h2.
  set (query := Exec (GhPrView (pr_number pr))) in *.
  assert (Hcheck : forall h q,
    observe_query E h (pr_number pr) = Some q ->
    CheckPrStatus.main E [worktree_id] {| file := Stored reg; history := h |}
    = (Exited (contract_exit_code q),
       {| file := Stored reg; history := query :: h |})).
  { intros h q Hq.
    pose proof (check_main_contract E {| file := Stored reg; history := h |}
                  worktree_id reg info eq_refl Hinfo) as Hc.
    rewrite Hpr, Hempty in Hc. exact (Hc q Hq). }
  destruct (cleanup_returns E
              {| file := Stored reg;
                 history := query :: Slept seconds :: query
                            :: Slept seconds :: query :: h0 |}
              worktree_id reg info Hgit eq_refl Hinfo) as [h [Hc Hg]].
  exists h. intros fuel.
  rewrite poll_loop_step by assumption. rewrite (Hcheck _ _ Ho1).
  cbn [fst snd contract_exit_code exit_status Z.eqb Pos.eqb].
  unfold log_event. cbn [file history].
  rewrite poll_loop_step by assumption. rewrite (Hcheck _ _ Ho2).
  cbn [fst snd contract_exit_code exit_status Z.eqb Pos.eqb].
  unfold log_event. cbn [file history].
  rewrite poll_loop_step by assumption. rewrite (Hcheck _ _ Ho3).
  cbn [fst snd contract_exit_code exit_status Z.eqb Pos.eqb].
  unfold log_event. cbn [file history].
  rewrite Hc. cbn [fst snd exit_status Z.eqb].
  split; [reflexivity|exact Hg].
Qed.

Lemma sleeps_grows_removal h h' :
  grows removal_step h h' -> sleeps h' = sleeps h.
Proof.
  induction 1 as [|e h' He _ IH]; [reflexivity|].
  destruct e; cbn in *; try contradiction; exact IH.
Qed.

(** C6, as stated, fails for a negative interval: with the pull request
    open (the nested check ends with status 1) and [--interval -1] the
    loop neither sleeps nor polls again; [time.sleep(-60)] raises
    [ValueError] and the first poll is the last. The same happens, with
    [OverflowError], for an interval of 200000000 minutes, longer than the
    clock can count. *)
Lemma poll_negative_interval_raises :
  exit_status (fst (CheckPrStatus.main (calm "OPEN") ["worktree-01"]
                      (start (Stored one_entry)))) = 1
  /\ PollPr.poll_pr_status (calm "OPEN") 5 "worktree-01" (-1)
       (start (Stored one_entry))
     = (Some (Raised ValueError),
        {| file := Stored one_entry; history := [Exec (GhPrView (Some 7))] |})
  /\ PollPr.poll_pr_status (calm "OPEN") 5 "worktree-01" 200000000
       (start (Stored one_entry))
     = (Some (Raised OverflowError),
        {| file := Stored one_entry; history := [Exec (GhPrView (Some 7))] |})
  /\ sleeps [Exec (GhPrView (Some 7))] = [].
Proof. repeat split; vm_compute; reflexivity. Qed.

(** C6 (amended): for every worktree identifier and every interval whose
    length in seconds is non-negative and not beyond what the platform can
    sleep, a turn of the loop reads the exit status of the nested status
    check: 0, it runs cleanup and terminates (with status 0 when cleanup
    ended with 0, else 1); 1, it sleeps interval times 60 seconds and
    polls again; anything else, it terminates with status 1. While the
    pull request stays open the loop is still polling after any number of
    turns, having slept once per turn. When the pull request is reported
    open at the first two polls and merged at the third, the loop sleeps
    exactly twice, interval times 60 seconds each, then runs cleanup,
    whose effects all come after the third query, and exits with status 0
    leaving the entry ['cleaned_up']. *)
Theorem poll_interprets_exit_codes (E : environment) (worktree_id : string)
    (interval_minutes : Z) :
  0 <= interval_minutes * 60 <= sleep_max E ->
  let seconds := interval_minutes * 60 in
  (forall fuel w,
     PollPr.poll_pr_status E (S fuel) worktree_id interval_minutes w
     = let check := CheckPrStatus.main E [worktree_id] w in
       let returncode := exit_status (fst check) in
       let w1 := snd check in
       if returncode =? 0 then
         let cleanup := Cleanup.main E [worktree_id] w1 in
         (Some (Exited (if exit_status (fst cleanup) =? 0 then 0 else 1)),
          snd cleanup)
       else if returncode =? 1 then
         PollPr.poll_pr_status E fuel worktree_id interval_minutes
           (log_event (Slept seconds) w1)
       else (Some (Exited 1), w1))
  /\ (forall reg info pr w,
        file w = Stored reg ->
        reg !! worktree_id = Some info ->
        wt_pr info = Some pr ->
        CheckPrStatus.empty_pr pr = false ->
        (forall h, observe_query E h (pr_number pr) = Some (QueryState "OPEN")) ->
        forall fuel,
          let run := PollPr.poll_pr_status E fuel worktree_id interval_minutes w in
          fst run = None
          /\ file (snd run) = file w
          /\ sleeps (history (snd run))
             = (sleeps (history w) ++ repeat seconds fuel)%list)
  /\ (forall reg info pr w,
        git_installed E ->
        file w = Stored reg ->
        reg !! worktree_id = Some info ->
        wt_pr info = Some pr ->
        CheckPrStatus.empty_pr pr = false ->
        let query := Exec (GhPrView (pr_number pr)) in
        let h1 := Slept seconds :: query :: history w in
        let h2 := Slept seconds :: query :: h1 in
        let cleaned := <[worktree_id := set_status info "cleaned_up"]> reg in
        observe_query E (history w) (pr_number pr) = Some (QueryState "OPEN") ->
        observe_query E h1 (pr_number pr) = Some (QueryState "OPEN") ->
        observe_query E h2 (pr_number pr) = Some (QueryState "MERGED") ->
        exists h,
          (forall fuel,
             PollPr.poll_pr_status E (S (S (S fuel))) worktree_id interval_minutes w
             = (Some (Exited 0),
                {| file := Stored cleaned; history := Wrote cleaned :: h |}))
          /\ grows removal_step (query :: h2) h
          /\ sleeps (Wrote cleaned :: h)
             = (sleeps (history w) ++ [seconds; seconds])%list).
Proof.
  intros Hsec seconds. split; [|split].
  - intros fuel w. unfold PollPr.poll_pr_status.
    now rewrite poll_loop_step.
  - intros reg info pr w Hfile Hinfo Hpr Hempty Hopen fuel.
    unfold PollPr.poll_pr_status. cbv zeta.
    rewrite (poll_while_open E worktree_id _ reg info pr Hsec Hinfo Hpr Hempty
               Hopen fuel w Hfile).
    split; [reflexivity|]. split; [apply file_after_open_polls|].
    apply sleeps_after_open_polls.
  - intros reg info pr w Hgit Hfile Hinfo Hpr Hempty query h1 h2 cleaned
      Ho1 Ho2 Ho3.
    destruct (poll_open_open_merged E worktree_id _ w reg info pr Hsec Hgit
                Hfile Hinfo Hpr Hempty Ho1 Ho2 Ho3) as [h Hrun].
    exists h. split; [|split].
    + intros fuel. exact (proj1 (Hrun fuel)).
    + exact (proj2 (Hrun O)).
    + cbn [sleeps]. rewrite (sleeps_grows_removal _ _ (proj2 (Hrun O))).
      subst query h1 h2. cbn [sleeps]. now rewrite <- app_assoc.
Qed.

(** ** The registry across all five scripts *)

Lemma poll_effect (E : environment) (worktree_id : string) (seconds : Z) :
  forall fuel w,
    touches_only_status worktree_id (file w)
      (file (snd (PollPr.poll_loop E fuel worktree_id seconds w))).
Proof.
  induction fuel as [|fuel IH]; intros w; [apply touches_refl|].
  cbn [PollPr.poll_loop].
  unfold PollPr.poll_once, PollPr.run_script, bind, time_sleep, sys_exit,
    raise, emit.
  pose proof (check_leaves_file E [worktree_id] w) as Hcheck.
  destruct (CheckPrStatus.main E [worktree_id] w) as [o w1].
  cbn [fst snd] in *. rewrite <- Hcheck.
  destruct (exit_status o =? 0).
  - pose proof (cleanup_effect E worktree_id w1) as [Hclean _].
    destruct (Cleanup.main E [worktree_id] w1) as [o2 w2]. cbn [fst snd] in *.
    now destruct (exit_status o2 =? 0).
  - destruct (exit_status o =? 1); [|apply touches_refl].
    destruct (seconds <? 0); [apply touches_refl|].
    destruct (sleep_max E <? seconds); [apply touches_refl|].
    apply (IH (log_event (Slept seconds) w1)).
Qed.

Lemma create_keeps_entries (E : environment) (feature_name : string) (w : world) :
  keeps_entries (file w) (file (snd (Create.main E [feature_name] w))).
Proof.
  destruct (create_outcome E feature_name w)
    as [[_ (reg & info & Hload & Hfile & _)]|[_ [Hfile _]]].
  - intros stored Hstored. rewrite Hstored in Hload. cbn in Hload. subst reg.
    eexists. split; [exact Hfile|].
    intros id Hid.
    destruct (decide (Create.generate_worktree_id stored = id)) as [<-|Hne].
    + rewrite lookup_insert_eq. eauto.
    + now rewrite lookup_insert_ne.
  - rewrite Hfile. apply keeps_refl.
Qed.

Lemma create_keeps_other_entries (E : environment) (feature_name : string)
    (w : world) (reg reg' : registry) :
  file w = Stored reg ->
  file (snd (Create.main E [feature_name] w)) = Stored reg' ->
  forall id, id <> Create.generate_worktree_id reg -> reg' !! id = reg !! id.
Proof.
  intros Hw Hw' id Hid.
  destruct (create_outcome E feature_name w)
    as [[_ (r & info & Hload & Hfile & _)]|[_ [Hfile _]]].
  - rewrite Hw in Hload. cbn in Hload. subst r.
    rewrite Hfile in Hw'. injection Hw' as <-.
    now rewrite lookup_insert_ne.
  - rewrite Hfile, Hw in Hw'. now injection Hw' as <-.
Qed.

(** X16: whatever the registry file holds and whatever the environment
    does, merge and cleanup leave a registry file with the same
    identifiers in which every entry is as before, except that the entry
    looked up may have another status (all its other keys, the PR
    sub-record included, as before); the polling loop, which runs cleanup
    at most, does the same, and the status check leaves the file alone.
    No script loses an identifier of the registry, create included, and
    create leaves every entry as it was save for the one under the
    identifier it derives. Merge and cleanup never ask git for the current
    branch: every checkout, pull and push they start names the base branch
    stored in the entry. *)
Theorem registry_entries_preserved (E : environment) (w : world)
    (worktree_id feature_name : string) (interval_minutes : Z) (fuel : nat) :
  let after_create := snd (Create.main E [feature_name] w) in
  let after_merge := snd (Merge.main E [worktree_id] w) in
  let after_cleanup := snd (Cleanup.main E [worktree_id] w) in
  let after_check := snd (CheckPrStatus.main E [worktree_id] w) in
  let after_poll :=
    snd (PollPr.poll_pr_status E fuel worktree_id interval_minutes w) in
  let base_branch := stored_base_branch (file w) worktree_id in
  (touches_only_status worktree_id (file w) (file after_merge)
   /\ touches_only_status worktree_id (file w) (file after_cleanup)
   /\ touches_only_status worktree_id (file w) (file after_poll)
   /\ file after_check = file w)
  /\ (keeps_entries (file w) (file after_create)
      /\ (forall reg reg',
            file w = Stored reg -> file after_create = Stored reg' ->
            forall id, id <> Create.generate_worktree_id reg ->
                       reg' !! id = reg !! id)
      /\ keeps_entries (file w) (file after_merge)
      /\ keeps_entries (file w) (file after_cleanup)
      /\ keeps_entries (file w) (file after_check)
      /\ keeps_entries (file w) (file after_poll))
  /\ (grows (uses_base_branch base_branch) (history w) (history after_merge)
      /\ grows (uses_base_branch base_branch) (history w) (history after_cleanup)).
Proof.
  cbv zeta.
  pose proof (merge_effect E worktree_id w) as [Hm Hmb].
  pose proof (cleanup_effect E worktree_id w) as [Hc Hcb].
  pose proof (poll_effect E worktree_id (interval_minutes * 60) fuel w) as Hp.
  pose proof (check_leaves_file E [worktree_id] w) as Hk.
  repeat split; try assumption.
  - apply create_keeps_entries.
  - apply create_keeps_other_entries.
  - exact (touches_keeps _ _ _ Hm).
  - exact (touches_keeps _ _ _ Hc).
  - rewrite Hk. apply keeps_refl.
  - exact (touches_keeps _ _ _ Hp).
Qed.

(** C7 fails for create where the identifier it derives is taken: a
    create that reports success has then put its new entry (the feature
    name asked for, status ['active'], no PR sub-record) in the place of
    the one stored under that identifier. The registry has as many
    entries as before and every other entry is as it was, but the record
    that was stored under the identifier is in the registry no more,
    unless it was an entry for the same feature name. *)
Theorem create_replaces_stored_record (E : environment) (feature_name : string)
    (w : world) (reg : registry) (old : worktree_info) :
  file w = Stored reg ->
  reg !! Create.generate_worktree_id reg = Some old ->
  fst (Create.main E [feature_name] w) = Exited 0 ->
  let worktree_id := Create.generate_worktree_id reg in
  exists reg' new,
    file (snd (Create.main E [feature_name] w)) = Stored reg'
    /\ reg' !! worktree_id = Some new
    /\ wt_feature_name new = feature_name
    /\ wt_branch new = "feature/" ++ feature_name
    /\ wt_status new = "active"
    /\ wt_pr new = None
    /\ size reg' = size reg
    /\ (forall id, id <> worktree_id -> reg' !! id = reg !! id)
    /\ (wt_feature_name old <> feature_name ->
        reg' !! worktree_id <> Some old
        /\ ~ touches_only_status worktree_id (file w)
              (file (snd (Create.main E [feature_name] w)))).
Proof.
  intros Hfile Hold Hexit. cbv zeta.
  destruct (create_outcome E feature_name w)
    as [[_ (reg0 & new & Hload & Hfile' & _ & _ & Hname & Hbranch & Hstatus
            & Hpr & _)]
       |[Hfail _]]; [|rewrite Hexit in Hfail; now contradiction Hfail].
  rewrite Hfile in Hload. cbn [loaded] in Hload. subst reg0.
  exists (<[Create.generate_worktree_id reg := new]> reg), new.
  split; [exact Hfile'|]. split; [apply lookup_insert_eq|].
  split; [exact Hname|]. split; [exact Hbranch|]. split; [exact Hstatus|].
  split; [exact Hpr|]. split; [|split].
  - rewrite map_size_insert, Hold. reflexivity.
  - intros id Hid. now rewrite lookup_insert_ne.
  - intros Hother. split.
    + rewrite lookup_insert_eq. intros Heq. injection Heq as <-. congruence.
    + rewrite Hfile, Hfile'. cbn [touches_only_status]. intros Htouch.
      specialize (Htouch (Create.generate_worktree_id reg)).
      rewrite Hold, lookup_insert_eq in Htouch.
      destruct Htouch as [(_ & Hsame & _) _]. congruence.
Qed.

(** ** Concrete instances *)

Lemma create_replaces_stored_record_witness :
  let before := delete "worktree-01" two_entries in
  let run := Create.main (calm "OPEN") ["auth-ui"] (start (Stored before)) in
  before !! "worktree-02" = Some billing
  /\ fst run = Exited 0
  /\ exists after,
       file (snd run) = Stored after
       /\ after !! "worktree-02" <> Some billing
       /\ size after = size before.
Proof.
  cbv zeta.
  assert (Hold : delete "worktree-01" two_entries
                 !! Create.generate_worktree_id (delete "worktree-01" two_entries)
                 = Some billing) by reflexivity.
  assert (Hexit : fst (Create.main (calm "OPEN") ["auth-ui"]
                         (start (Stored (delete "worktree-01" two_entries))))
                  = Exited 0) by reflexivity.
  destruct (create_replaces_stored_record (calm "OPEN") "auth-ui"
              (start (Stored (delete "worktree-01" two_entries)))
              (delete "worktree-01" two_entries) billing
              eq_refl Hold Hexit)
    as (after & new & Hfile & _ & _ & _ & _ & _ & Hsize & _ & Hgone).
  split; [reflexivity|]. split; [exact Hexit|].
  exists after. split; [exact Hfile|].
  split; [|exact Hsize].
  apply Hgone. discriminate.
Defined.

Lemma sample_env_git_installed pr_state git_returncode :
  git_installed (sample_env pr_state git_returncode).
Proof. intros h c _. discriminate. Defined.

Lemma hyphen_underscore_names_rejected_witness :
  all_chars hyphen_or_underscore "-_-" = true
  /\ Create.main (calm "OPEN") ["-_-"] (start NoFile) = (Exited 1, start NoFile).
Proof.
  split; [reflexivity|].
  exact (proj1 (proj2 (proj2 (proj2
    (hyphen_underscore_names_rejected (calm "OPEN") "-_-" [] (start NoFile)
       eq_refl))))).
Defined.


Lemma merge_marks_merged_iff_witness :
  (exists h,
     Merge.main (calm "OPEN") ["worktree-01"] (start (Stored one_entry))
     = (Returned tt,
        {| file := Stored (<["worktree-01" := set_status auth_ui "merged"]> one_entry);
           history := h |}))
  /\ (exists h,
        Merge.main conflicting ["worktree-01"] (start (Stored one_entry))
        = (Exited 1, {| file := Stored one_entry; history := h |})).
Proof.
  split.
  - eexists.
    exact (proj1 (merge_marks_merged_iff (calm "OPEN") (start (Stored one_entry))
                    "worktree-01" one_entry auth_ui (sample_env_git_installed _ _)
                    eq_refl eq_refl)).
  - eexists.
    exact (proj1 (merge_marks_merged_iff conflicting (start (Stored one_entry))
                    "worktree-01" one_entry auth_ui
                    (sample_env_git_installed _ _) eq_refl eq_refl)).
Defined.

Lemma cleanup_always_marks_cleaned_up_witness :
  let cleaned := <["worktree-01" := set_status auth_ui "cleaned_up"]> one_entry in
  exists w1 w2 h1 h2,
    Cleanup.main (calm "MERGED") ["worktree-01"] (start (Stored one_entry))
    = (Returned tt, w1)
    /\ w1 = {| file := Stored cleaned; history := Wrote cleaned :: h1 |}
    /\ Cleanup.main (calm "MERGED") ["worktree-01"] w1 = (Returned tt, w2)
    /\ w2 = {| file := Stored cleaned; history := Wrote cleaned :: h2 |}
    /\ wt_status <$> cleaned !! "worktree-01" = Some "cleaned_up".
Proof.
  exact (cleanup_always_marks_cleaned_up (calm "MERGED")
           (start (Stored one_entry)) "worktree-01" one_entry auth_ui
           (sample_env_git_installed _ _) eq_refl eq_refl).
Defined.

Lemma poll_interprets_exit_codes_witness :
  let w := start (Stored one_entry) in
  let cleaned := <["worktree-01" := set_status auth_ui "cleaned_up"]> one_entry in
  (fst (PollPr.poll_pr_status (calm "OPEN") 10 "worktree-01" 1 w) = None
   /\ file (snd (PollPr.poll_pr_status (calm "OPEN") 10 "worktree-01" 1 w))
      = Stored one_entry
   /\ sleeps (history (snd (PollPr.poll_pr_status (calm "OPEN") 10 "worktree-01" 1 w)))
      = repeat 60 10)
  /\ exists h,
       (forall fuel,
          PollPr.poll_pr_status merged_after_two_sleeps (S (S (S fuel)))
            "worktree-01" 1 w
          = (Some (Exited 0),
             {| file := Stored cleaned; history := Wrote cleaned :: h |}))
       /\ sleeps (Wrote cleaned :: h) = [60; 60].
Proof.
  assert (Hsec : forall E, sleep_max E = 9223372036 -> 0 <= 1 * 60 <= sleep_max E).
  { intros E ->. split; intro H; discriminate H. }
  split.
  - exact (proj1 (proj2 (poll_interprets_exit_codes (calm "OPEN") "worktree-01" 1
                           (Hsec (calm "OPEN") eq_refl)))
             one_entry auth_ui _ (start (Stored one_entry))
             eq_refl eq_refl eq_refl eq_refl (fun h => eq_refl) 10%nat).
  - destruct (proj2 (proj2 (poll_interprets_exit_codes merged_after_two_sleeps
                              "worktree-01" 1
                              (Hsec merged_after_two_sleeps eq_refl)))
                one_entry auth_ui _ (start (Stored one_entry))
                (sample_env_git_installed _ _)
                eq_refl eq_refl eq_refl eq_refl eq_refl eq_refl eq_refl)
      as [h [Hrun [_ Hsleeps]]].
    exists h. split; [exact Hrun|exact Hsleeps].
Defined.

(** ** Create on a registry whose next identifier is free *)

(** X1 (besides the claims): when the identifier derived from the size of the
    registry is not yet a key, create either reports success, having
    written the registry with exactly one further entry (status
    ['active'], the derived identifier, every earlier entry as it was), or
    ends with a non-zero status without writing: the registry file is as
    before. *)
Theorem create_appends_or_leaves (E : environment) (feature_name : string)
    (w : world) (reg : registry) :
  loaded (file w) reg ->
  reg !! Create.generate_worktree_id reg = None ->
  let run := Create.main E [feature_name] w in
  let worktree_id := Create.generate_worktree_id reg in
  (fst run = Exited 0
   /\ exists info,
       file (snd run) = Stored (<[worktree_id := info]> reg)
       /\ size (<[worktree_id := info]> reg) = S (size reg)
       /\ wt_id info = worktree_id
       /\ wt_status info = "active"
       /\ wt_feature_name info = feature_name
       /\ forall id, id <> worktree_id -> <[worktree_id := info]> reg !! id = reg !! id)
  \/ (exit_status (fst run) <> 0
      /\ file (snd run) = file w
      /\ grows not_a_write (history w) (history (snd run))).
Proof.
  intros Hload Hfresh. cbv zeta.
  destruct (create_outcome E feature_name w)
    as [[Hexit (reg' & info & Hload' & Hfile & _ & Hid & Hname & _ & Hstatus & _)]
       |Hfail]; [left|right; exact Hfail].
  assert (reg' = reg) as ->.
  { destruct (file w); cbn in *; [congruence|contradiction|congruence]. }
  split; [exact Hexit|]. exists info.
  repeat split; try assumption.
  - now apply map_size_insert_None.
  - intros id Hne. now rewrite lookup_insert_ne.
Qed.

Lemma create_appends_or_leaves_witness :
  let run := Create.main (calm "OPEN") ["billing"] (start (Stored one_entry)) in
  fst run = Exited 0
  /\ exists info,
       file (snd run) = Stored (<["worktree-02" := info]> one_entry)
       /\ wt_status info = "active".
Proof.
  cbv zeta.
  destruct (create_appends_or_leaves (calm "OPEN") "billing"
              (start (Stored one_entry)) one_entry eq_refl eq_refl)
    as [[Hexit (info & Hfile & _ & _ & Hstatus & _)]|[Hexit _]].
  - split; [exact Hexit|]. exists info. split; [exact Hfile|exact Hstatus].
  - exfalso. apply Hexit. reflexivity.
Defined.

(** ** Registries numbered without gaps *)

Lemma numbered_inj j k : numbered j = numbered k -> j = k.
Proof.
  unfold numbered. intros H.
  assert (Hfmt : Py.format_0d 2 j = Py.format_0d 2 k).
  { cbn [String.append] in H. now injection H. }
  rewrite <- (value_of_format_0d_2 j), <- (value_of_format_0d_2 k).
  now rewrite Hfmt.
Qed.

Lemma gapless_empty : gapless ∅.
Proof.
  intros id. rewrite lookup_empty, map_size_empty. split.
  - intros [? ?]. discriminate.
  - intros (k & Hk & _). lia.
Qed.

Lemma gapless_fresh (reg : registry) :
  gapless reg -> reg !! Create.generate_worktree_id reg = None.
Proof.
  intros Hgap. apply eq_None_not_Some. intros Hsome.
  apply Hgap in Hsome as (k & Hk & Heq).
  apply numbered_inj in Heq. lia.
Qed.

Lemma gapless_append (reg : registry) info :
  gapless reg -> gapless (<[Create.generate_worktree_id reg := info]> reg).
Proof.
  intros Hgap id.
  rewrite map_size_insert_None by now apply gapless_fresh.
  destruct (decide (Create.generate_worktree_id reg = id)) as [<-|Hne].
  - rewrite lookup_insert_eq. split; [|eauto].
    intros _. exists (size reg + 1)%nat. split; [lia|reflexivity].
  - rewrite lookup_insert_ne by assumption. rewrite (Hgap id). split.
    + intros (k & Hk & ->). exists k. split; [lia|reflexivity].
    + intros (k & Hk & ->). exists k. split; [|reflexivity].
      assert (k <> size reg + 1)%nat by (intros ->; now apply Hne). lia.
Qed.

Lemma gapless_status (reg : registry) worktree_id info s :
  reg !! worktree_id = Some info ->
  gapless reg -> gapless (<[worktree_id := set_status info s]> reg).
Proof.
  intros Hinfo Hgap id.
  rewrite map_size_insert_Some by eauto.
  destruct (decide (worktree_id = id)) as [<-|Hne].
  - rewrite lookup_insert_eq. rewrite <- (Hgap worktree_id), Hinfo.
    split; eauto.
  - rewrite lookup_insert_ne by assumption. apply Hgap.
Qed.

Lemma touches_gapless worktree_id (reg reg' : registry) :
  touches_only_status worktree_id (Stored reg) (Stored reg') ->
  gapless reg -> gapless reg'.
Proof.
  intros Htouch Hgap.
  assert (Hdom : forall id, is_Some (reg' !! id) <-> is_Some (reg !! id)).
  { intros id. specialize (Htouch id).
    destruct (reg !! id), (reg' !! id); try contradiction;
      split; intros [? ?]; eauto; discriminate. }
  assert (Hsize : size reg' = size reg).
  { rewrite <- !size_dom. f_equal. apply set_eq. intros id.
    rewrite !elem_of_dom. apply Hdom. }
  intros id. rewrite Hdom, Hsize. apply Hgap.
Qed.

(** X2 (besides the claims): on a registry numbered without gaps (the empty
    one is, and with no file the script starts from the empty one) the
    identifier create derives is always free, so create either appends
    exactly one entry, leaving a registry that is again numbered without
    gaps, or ends with a non-zero status and the file untouched; merge,
    cleanup and the polling loop keep the numbering as well. Started from
    nothing, the scripts therefore never meet the collision of C2. *)
Theorem gapless_registry_invariant (E : environment) (w : world)
    (worktree_id feature_name : string) (interval_minutes : Z) (fuel : nat)
    (reg : registry) :
  loaded (file w) reg ->
  gapless reg ->
  let created := Create.main E [feature_name] w in
  reg !! Create.generate_worktree_id reg = None
  /\ ((fst created = Exited 0
       /\ exists info,
           file (snd created)
           = Stored (<[Create.generate_worktree_id reg := info]> reg)
           /\ size (<[Create.generate_worktree_id reg := info]> reg) = S (size reg)
           /\ gapless (<[Create.generate_worktree_id reg := info]> reg))
      \/ (exit_status (fst created) <> 0 /\ file (snd created) = file w))
  /\ (forall reg',
        file w = Stored reg ->
        file (snd (Merge.main E [worktree_id] w)) = Stored reg'
        \/ file (snd (Cleanup.main E [worktree_id] w)) = Stored reg'
        \/ file (snd (PollPr.poll_pr_status E fuel worktree_id interval_minutes w))
           = Stored reg' ->
        gapless reg').
Proof.
  intros Hload Hgap. cbv zeta.
  pose proof (gapless_fresh reg Hgap) as Hfresh.
  split; [exact Hfresh|]. split.
  - destruct (create_outcome E feature_name w)
      as [[Hexit (r & info & Hload' & Hfile & _)]|[Hexit [Hfile _]]];
      [left|right; split; assumption].
    assert (r = reg) as ->.
    { destruct (file w); cbn in *; [congruence|contradiction|congruence]. }
    split; [exact Hexit|]. exists info. split; [exact Hfile|].
    split; [now apply map_size_insert_None|now apply gapless_append].
  - intros reg' Hw Hafter.
    pose proof (merge_effect E worktree_id w) as [Hm _].
    pose proof (cleanup_effect E worktree_id w) as [Hc _].
    pose proof (poll_effect E worktree_id (interval_minutes * 60) fuel w) as Hp.
    unfold PollPr.poll_pr_status in Hafter. rewrite Hw in Hm, Hc, Hp.
    destruct Hafter as [H|[H|H]]; rewrite H in *;
      eapply touches_gapless; eassumption.
Qed.

Lemma gapless_registry_invariant_witness :
  one_entry !! Create.generate_worktree_id one_entry = None
  /\ gapless one_entry.
Proof.
  assert (Hgap : gapless one_entry).
  { exact (gapless_append ∅ auth_ui gapless_empty). }
  split; [|exact Hgap].
  exact (proj1 (gapless_registry_invariant (calm "OPEN")
                  (start (Stored one_entry)) "worktree-01" "billing" 5 3 one_entry
                  eq_refl Hgap)).
Defined.

(** * Further properties of the scripts *)

(** ** Unknown identifiers *)

(** X3: when there is no registry file, or the registry has no entry for
    the identifier, merge and cleanup exit with status 1 and the status
    check with status 2, each before any effect (no command is started,
    nothing is written); the polling loop ends after that one check with
    status 1, without sleeping and without running cleanup. *)
Theorem unknown_worktree_no_effect (E : environment) (w : world)
    (worktree_id : string) (interval_minutes : Z) (fuel : nat) :
  unknown_worktree (file w) worktree_id ->
  Merge.main E [worktree_id] w = (Exited 1, w)
  /\ Cleanup.main E [worktree_id] w = (Exited 1, w)
  /\ CheckPrStatus.main E [worktree_id] w = (Exited 2, w)
  /\ PollPr.poll_pr_status E (S fuel) worktree_id interval_minutes w
     = (Some (Exited 1), w).
Proof.
  intros Hunknown.
  assert (Hcheck : CheckPrStatus.main E [worktree_id] w = (Exited 2, w)).
  { apply check_main_without_entry. exact Hunknown. }
  split; [|split; [|split; [exact Hcheck|]]].
  - destruct w as [f h]. cbn [file] in Hunknown. unfold_script.
    destruct f as [| |reg]; [reflexivity|contradiction|].
    rewrite Hunknown. now destruct (empty_dict reg).
  - destruct w as [f h]. cbn [file] in Hunknown. unfold_script.
    destruct f as [| |reg]; [reflexivity|contradiction|].
    rewrite Hunknown. now destruct (empty_dict reg).
  - unfold PollPr.poll_pr_status. cbn [PollPr.poll_loop].
    unfold PollPr.poll_once, PollPr.run_script, bind.
    rewrite Hcheck. reflexivity.
Qed.

Lemma unknown_worktree_no_effect_witness :
  Merge.main (calm "OPEN") ["worktree-09"] (start (Stored one_entry))
  = (Exited 1, start (Stored one_entry))
  /\ PollPr.poll_pr_status (calm "OPEN") 4 "worktree-09" 5 (start NoFile)
     = (Some (Exited 1), start NoFile).
Proof.
  split.
  - exact (proj1 (unknown_worktree_no_effect (calm "OPEN")
                    (start (Stored one_entry)) "worktree-09" 5 0 eq_refl)).
  - exact (proj2 (proj2 (proj2 (unknown_worktree_no_effect (calm "OPEN")
                    (start NoFile) "worktree-09" 5 3 I)))).
Defined.

(** ** Identifiers and names *)

(** X4: the identifier determines the size it was derived from: two
    registries get the same identifier exactly when they have the same
    number of entries, also beyond 99 entries where the numeral outgrows
    the two padded digits; read back as a number, the digits after
    ["worktree-"] are the size plus one. *)
Theorem generate_worktree_id_injective (reg1 reg2 : registry) :
  (Create.generate_worktree_id reg1 = Create.generate_worktree_id reg2
   <-> size reg1 = size reg2)
  /\ exists digits,
       Create.generate_worktree_id reg1 = "worktree-" ++ digits
       /\ value_of_digits 0 digits = S (size reg1).
Proof.
  split.
  - split.
    + intros H. apply (numbered_inj (size reg1 + 1) (size reg2 + 1)) in H. lia.
    + intros H. unfold Create.generate_worktree_id. now rewrite H.
  - exists (Py.format_0d 2 (size reg1 + 1)). split; [reflexivity|].
    rewrite value_of_format_0d_2. lia.
Qed.

Lemma allowed_char_safe c : allowed_char c = true -> unsafe_char c = false.
Proof.
  destruct c as [[] [] [] [] [] [] [] []]; vm_compute; congruence.
Qed.

Lemma all_allowed_none_unsafe s :
  all_chars allowed_char s = true -> any_char unsafe_char s = false.
Proof.
  induction s as [|c s IH]; [reflexivity|].
  cbn [all_chars any_char]. intros [Hc Hs]%andb_true_iff.
  now rewrite (allowed_char_safe c Hc), IH.
Qed.

Lemma has_slash_any_char s :
  Py.has_slash s = any_char (fun c => Ascii.eqb c "/"%char) s.
Proof.
  unfold Py.has_slash. induction s as [|c s IH]; [reflexivity|].
  cbn [list_ascii_of_string existsb any_char]. now rewrite IH.
Qed.

Lemma any_char_weaken (p q : ascii -> bool) s :
  (forall c, p c = true -> q c = true) ->
  any_char q s = false -> any_char p s = false.
Proof.
  intros Hpq. induction s as [|c s IH]; [reflexivity|].
  cbn [any_char]. intros [Hc Hs]%orb_false_iff.
  rewrite (IH Hs), orb_false_r.
  destruct (p c) eqn:Hp; [|reflexivity].
  rewrite (Hpq c Hp) in Hc. discriminate.
Qed.

(** X5: a feature name that [main] accepts is a single, harmless path
    component: it is not empty, it is neither ["."] nor [".."], and it
    holds no slash, no backslash, no dot and no white space. *)
Theorem valid_feature_name_safe (feature_name : string) :
  Create.valid_feature_name feature_name = true ->
  feature_name <> EmptyString
  /\ feature_name <> "."
  /\ feature_name <> ".."
  /\ any_char unsafe_char feature_name = false
  /\ Py.has_slash feature_name = false.
Proof.
  intros Hvalid. rewrite valid_feature_name_char in Hvalid.
  apply andb_true_iff in Hvalid as [Hall Hany].
  pose proof (all_allowed_none_unsafe _ Hall) as Hsafe.
  repeat split.
  - intros ->. discriminate.
  - intros ->. discriminate.
  - intros ->. discriminate.
  - exact Hsafe.
  - rewrite has_slash_any_char.
    apply (any_char_weaken _ unsafe_char); [|exact Hsafe].
    intros c Hc. unfold unsafe_char. now rewrite Hc.
Qed.

Lemma valid_feature_name_safe_witness :
  "auth-ui" <> EmptyString /\ Py.has_slash "auth-ui" = false.
Proof.
  pose proof (valid_feature_name_safe "auth-ui" eq_refl)
    as (Hne & _ & _ & _ & Hslash).
  split; [exact Hne|exact Hslash].
Defined.

(** ** Create, step by step *)

Lemma create_after_prelude (E : environment) (feature_name : string) (w : world)
    (base_branch worktrees_dir : string) :
  Create.valid_feature_name feature_name = true ->
  create_prelude E (history w) base_branch worktrees_dir ->
  let h := after_prelude (history w) worktrees_dir in
  let worktree_path := Py.path_join worktrees_dir feature_name in
  let add := GitWorktreeAdd ("feature/" ++ feature_name) worktree_path base_branch in
  Create.main E [feature_name] w
  = if path_exists E h worktree_path
    then (Exited 1, {| file := file w; history := h |})
    else
      bind
        (try_except (bind (subprocess_run_check E add) (fun _ => ret true))
           except_CalledProcessError (ret false))
        (fun added =>
           if negb added then sys_exit 1
           else
             bind load_registry (fun reg =>
             let worktree_id := Create.generate_worktree_id reg in
             bind (datetime_now_isoformat E) (fun created =>
             let info :=
               {| wt_id := worktree_id;
                  wt_feature_name := feature_name;
                  wt_path := worktree_path;
                  wt_branch := "feature/" ++ feature_name;
                  wt_base_branch := base_branch;
                  wt_created := created;
                  wt_status := "active";
                  wt_pr := None |} in
             bind (save_registry (<[worktree_id := info]> reg))
               (fun _ => sys_exit 0))))
        {| file := file w; history := h |}.
Proof.
  intros Hvalid ([rc1 out1] & [rc2 out2] & Hhead & Hrc1 & -> & Htop & Hrc2
                 & -> & Hmk).
  cbn [returncode stdout] in *. subst rc1 rc2.
  destruct w as [f h0]. cbn [history file] in *. cbv zeta.
  unfold after_prelude, Create.main. rewrite Hvalid. cbn [negb].
  unfold_script.
  rewrite Hhead. simpl_script. cbn [Z.eqb]. simpl_script.
  rewrite Htop. simpl_script. cbn [Z.eqb]. simpl_script.
  rewrite Hmk. simpl_script.
  match goal with
  | |- context [path_exists E ?h ?p] => destruct (path_exists E h p)
  end; [reflexivity|].
  match goal with
  | |- context [spawn E ?h ?c] => destruct (spawn E h c) as [|[rc out]]
  end; simpl_script; [reflexivity|].
  destruct (rc =? 0); simpl_script; [|reflexivity].
  destruct f; reflexivity.
Qed.

(** X6: once the current branch and the repository root are known and the
    worktrees directory is there, create gives up with exit status 1 in
    two cases, and in both the registry file is neither read nor written:
    the worktree path exists already, and then [git worktree add] is not
    even started; or [git worktree add] fails, and then that command is
    the last effect. *)
Theorem create_refuses_cleanly (E : environment) (feature_name : string) (w : world)
    (base_branch worktrees_dir : string) :
  Create.valid_feature_name feature_name = true ->
  create_prelude E (history w) base_branch worktrees_dir ->
  let h := after_prelude (history w) worktrees_dir in
  let worktree_path := Py.path_join worktrees_dir feature_name in
  let add := GitWorktreeAdd ("feature/" ++ feature_name) worktree_path base_branch in
  (path_exists E h worktree_path = true ->
   Create.main E [feature_name] w
   = (Exited 1, {| file := file w; history := h |}))
  /\ (path_exists E h worktree_path = false ->
      forall r, spawn E h add = Ran r -> returncode r <> 0 ->
      Create.main E [feature_name] w
      = (Exited 1, {| file := file w; history := Exec add :: h |})).
Proof.
  intros Hvalid Hprelude h worktree_path add.
  pose proof (create_after_prelude E feature_name w base_branch worktrees_dir
                Hvalid Hprelude) as Hmain.
  cbv zeta in Hmain. fold h worktree_path add in Hmain.
  split.
  - intros Hthere. now rewrite Hmain, Hthere.
  - intros Hfree r Hrun Hrc. rewrite Hmain, Hfree.
    unfold bind, try_except, subprocess_run_check, subprocess_run, bind.
    cbn [history file]. rewrite Hrun.
    apply Z.eqb_neq in Hrc. rewrite Hrc. reflexivity.
Qed.

Lemma sample_prelude (E : environment) :
  spawn E [] GitRevParseAbbrevRefHead
  = spawn (calm "OPEN") [] GitRevParseAbbrevRefHead ->
  spawn E [Exec GitRevParseAbbrevRefHead] GitRevParseShowToplevel
  = spawn (calm "OPEN") [] GitRevParseShowToplevel ->
  mkdir_ok E [Exec GitRevParseShowToplevel; Exec GitRevParseAbbrevRefHead]
    "/home/dev/worktrees" = true ->
  create_prelude E [] "main" "/home/dev/worktrees".
Proof.
  intros Hhead Htop Hmk. unfold create_prelude.
  eexists _, _. rewrite Hhead, Htop.
  split; [reflexivity|]. split; [reflexivity|]. split; [reflexivity|].
  split; [reflexivity|]. split; [reflexivity|]. split; [reflexivity|].
  exact Hmk.
Defined.

Lemma create_refuses_cleanly_witness :
  Create.main occupied ["auth-ui"] (start (Stored one_entry))
  = (Exited 1,
     {| file := Stored one_entry;
        history := after_prelude [] "/home/dev/worktrees" |})
  /\ Create.main add_fails ["auth-ui"] (start (Stored one_entry))
     = (Exited 1,
        {| file := Stored one_entry;
           history :=
             Exec (GitWorktreeAdd "feature/auth-ui" "/home/dev/worktrees/auth-ui" "main")
             :: after_prelude [] "/home/dev/worktrees" |}).
Proof.
  split.
  - exact (proj1 (create_refuses_cleanly occupied "auth-ui"
                    (start (Stored one_entry)) "main" "/home/dev/worktrees"
                    eq_refl (sample_prelude occupied eq_refl eq_refl eq_refl))
             eq_refl).
  - exact (proj2 (create_refuses_cleanly add_fails "auth-ui"
                    (start (Stored one_entry)) "main" "/home/dev/worktrees"
                    eq_refl (sample_prelude add_fails eq_refl eq_refl eq_refl))
             eq_refl _ eq_refl ltac:(discriminate)).
Defined.

(** X7: once the current branch and the repository root are known, the
    worktrees directory is there, the worktree path is free and
    [git worktree add] has succeeded, create exits with status 0 and its
    last effect is to write the registry it loaded (the empty one when
    there is no file) with one entry put under the derived identifier:
    the feature name, the path [<worktrees>/<name>], the branch
    [feature/<name>], the branch that was checked out when create
    started as base branch, the time of registration, status ['active'],
    no PR sub-record. *)
Theorem create_registers_entry (E : environment) (feature_name : string) (w : world)
    (base_branch worktrees_dir : string) (reg : registry) (r : completed) :
  Create.valid_feature_name feature_name = true ->
  create_prelude E (history w) base_branch worktrees_dir ->
  let h := after_prelude (history w) worktrees_dir in
  let worktree_path := Py.path_join worktrees_dir feature_name in
  let add := GitWorktreeAdd ("feature/" ++ feature_name) worktree_path base_branch in
  path_exists E h worktree_path = false ->
  spawn E h add = Ran r ->
  returncode r = 0 ->
  loaded (file w) reg ->
  let worktree_id := Create.generate_worktree_id reg in
  let info :=
    {| wt_id := worktree_id;
       wt_feature_name := feature_name;
       wt_path := worktree_path;
       wt_branch := "feature/" ++ feature_name;
       wt_base_branch := base_branch;
       wt_created := now_isoformat E (Exec add :: h);
       wt_status := "active";
       wt_pr := None |} in
  Create.main E [feature_name] w
  = (Exited 0,
     {| file := Stored (<[worktree_id := info]> reg);
        history := Wrote (<[worktree_id := info]> reg) :: Exec add :: h |}).
Proof.
  intros Hvalid Hprelude h worktree_path add Hfree Hrun Hrc Hload.
  pose proof (create_after_prelude E feature_name w base_branch worktrees_dir
                Hvalid Hprelude) as Hmain.
  cbv zeta in Hmain. fold h worktree_path add in Hmain.
  cbv zeta. rewrite Hmain, Hfree.
  unfold bind, try_except, subprocess_run_check, subprocess_run, bind.
  cbn [history file]. rewrite Hrun, Hrc. cbn.
  unfold load_registry. cbn [file].
  destruct (file w); cbn in Hload; [subst reg|contradiction|subst reg];
    reflexivity.
Qed.

Lemma create_registers_entry_witness :
  let info :=
    {| wt_id := "worktree-01";
       wt_feature_name := "auth-ui";
       wt_path := "/home/dev/worktrees/auth-ui";
       wt_branch := "feature/auth-ui";
       wt_base_branch := "main";
       wt_created := "2025-01-01T00:00:00";
       wt_status := "active";
       wt_pr := None |} in
  exists h,
    Create.main (calm "OPEN") ["auth-ui"] (start NoFile)
    = (Exited 0,
       {| file := Stored (<["worktree-01" := info]> ∅);
          history := Wrote (<["worktree-01" := info]> ∅) :: h |}).
Proof.
  eexists.
  exact (create_registers_entry (calm "OPEN") "auth-ui" (start NoFile)
           "main" "/home/dev/worktrees" ∅ _
           eq_refl (sample_prelude (calm "OPEN") eq_refl eq_refl eq_refl)
           eq_refl eq_refl eq_refl eq_refl).
Defined.

(** ** Cleanup, step by step *)

(** X8: with git installed and the entry in the registry, cleanup runs
    its steps in one fixed order and returns. [docker-compose down -v] is
    started only when both the worktree directory and its
    [docker-compose.yml] exist. [git worktree remove --force] is always
    started; the directory is deleted by hand only when that command
    failed and the directory is still there. Then come, whatever happened
    before, [git branch -D] on the feature branch, the deletion of the
    remote branch and the checkout of the stored base branch, and last
    the registry is written with the status ['cleaned_up']. *)
Theorem cleanup_effects_in_order (E : environment) (w : world)
    (worktree_id : string) (reg : registry) (info : worktree_info) :
  git_installed E ->
  file w = Stored reg ->
  reg !! worktree_id = Some info ->
  let worktree_path := wt_path info in
  let feature_branch := wt_branch info in
  let base_branch := wt_base_branch info in
  let docker :=
    if path_exists E (history w) worktree_path
       && path_exists E (history w) (Py.path_join worktree_path "docker-compose.yml")
    then [Exec (DockerComposeDown worktree_path)] else [] in
  let h1 := (docker ++ history w)%list in
  let remove := GitWorktreeRemoveForce worktree_path in
  let h2 := Exec remove :: h1 in
  let by_hand :=
    if succeeds E h1 remove then []
    else if path_exists E h2 worktree_path && rmtree_ok E h2 worktree_path
         then [RemovedTree worktree_path] else [] in
  let cleaned := <[worktree_id := set_status info "cleaned_up"]> reg in
  Cleanup.main E [worktree_id] w
  = (Returned tt,
     {| file := Stored cleaned;
        history :=
          Wrote cleaned
          :: Exec (GitCheckout base_branch)
          :: Exec (GitPushOriginDelete feature_branch)
          :: Exec (GitBranchDelete feature_branch)
          :: (by_hand ++ h2)%list |}).
Proof.
  intros Hgit Hfile Hinfo.
  pose proof (registry_with_entry_not_empty _ _ _ Hinfo) as Hne.
  destruct w as [f h]. cbn [file] in Hfile. subst f.
  cbv zeta. unfold succeeds. unfold_script. rewrite Hne, Hinfo. simpl_script.
  destruct (path_exists E h (wt_path info)); simpl_script;
    [destruct (path_exists E h (Py.path_join (wt_path info) "docker-compose.yml"));
     simpl_script|];
    cbn [app];
    repeat case_env Hgit; reflexivity.
Qed.

Lemma cleanup_effects_in_order_witness :
  let cleaned := <["worktree-01" := set_status auth_ui "cleaned_up"]> one_entry in
  Cleanup.main (calm "MERGED") ["worktree-01"] (start (Stored one_entry))
  = (Returned tt,
     {| file := Stored cleaned;
        history :=
          [Wrote cleaned;
           Exec (GitCheckout "main");
           Exec (GitPushOriginDelete "feature/auth-ui");
           Exec (GitBranchDelete "feature/auth-ui");
           Exec (GitWorktreeRemoveForce "/home/dev/worktrees/auth-ui")] |}).
Proof.
  exact (cleanup_effects_in_order (calm "MERGED") (start (Stored one_entry))
           "worktree-01" one_entry auth_ui (sample_env_git_installed _ _)
           eq_refl eq_refl).
Defined.

(** ** From create to cleanup *)

Lemma merge_outcome (E : environment) (w : world) (worktree_id : string)
    (reg : registry) (info : worktree_info) :
  file w = Stored reg ->
  reg !! worktree_id = Some info ->
  let run := Merge.main E [worktree_id] w in
  (fst run = Returned tt
   /\ file (snd run) = Stored (<[worktree_id := set_status info "merged"]> reg))
  \/ (exit_status (fst run) = 1 /\ file (snd run) = Stored reg).
Proof.
  intros Hfile Hinfo.
  pose proof (registry_with_entry_not_empty _ _ _ Hinfo) as Hne.
  destruct w as [f h]. cbn [file] in Hfile. subst f.
  cbv zeta. unfold_script. rewrite Hne, Hinfo.
  repeat case_env I;
    first [left; split; reflexivity | right; split; reflexivity].
Qed.

(** X9: after a create that reported success, the entry it wrote goes
    through the rest of its life as follows, git being installed. Merge on
    the new identifier either returns with the status ['merged'] or ends
    with exit status 1 and the entry still ['active']; in both cases every
    checkout, pull and push it started named the branch that was checked
    out when create ran, not the branch checked out now. Cleanup run after
    that returns and leaves the entry ['cleaned_up'] whether the merge had
    gone through or not: it does not look at the status. The status
    stored under the identifier is thus ['active'] after create,
    ['merged'] or ['active'] after merge and ['cleaned_up'] at the end,
    the stored base branch staying what create recorded. The registry at
    the end is the one create loaded plus that one entry. *)
Theorem lifecycle_ends_cleaned_up (E : environment) (feature_name : string)
    (w : world) (reg : registry) :
  git_installed E ->
  loaded (file w) reg ->
  fst (Create.main E [feature_name] w) = Exited 0 ->
  let worktree_id := Create.generate_worktree_id reg in
  let w1 := snd (Create.main E [feature_name] w) in
  let w2 := snd (Merge.main E [worktree_id] w1) in
  let w3 := snd (Cleanup.main E [worktree_id] w2) in
  exists info head,
    file w1 = Stored (<[worktree_id := info]> reg)
    /\ wt_status info = "active"
    /\ stored_status (file w1) worktree_id = Some "active"
    /\ spawn E (history w) GitRevParseAbbrevRefHead = Ran head
    /\ wt_base_branch info = Py.strip (stdout head)
    /\ (fst (Merge.main E [worktree_id] w1) = Returned tt
        /\ file w2 = Stored (<[worktree_id := set_status info "merged"]> reg)
        /\ stored_status (file w2) worktree_id = Some "merged"
        \/ exit_status (fst (Merge.main E [worktree_id] w1)) = 1
           /\ file w2 = file w1
           /\ stored_status (file w2) worktree_id = Some "active")
    /\ stored_base_branch (file w2) worktree_id = Some (Py.strip (stdout head))
    /\ grows (uses_base_branch (Some (Py.strip (stdout head))))
         (history w1) (history w2)
    /\ fst (Cleanup.main E [worktree_id] w2) = Returned tt
    /\ file w3 = Stored (<[worktree_id := set_status info "cleaned_up"]> reg)
    /\ stored_status (file w3) worktree_id = Some "cleaned_up"
    /\ stored_base_branch (file w3) worktree_id = Some (Py.strip (stdout head))
    /\ forall other, other <> worktree_id ->
         stored_status (file w3) other = wt_status <$> reg !! other.
Proof.
  intros Hgit Hload Hexit. cbv zeta.
  destruct (create_outcome E feature_name w)
    as [[_ (reg' & info & Hload' & Hfile & _ & _ & _ & _ & Hstatus & _ & head
            & Hhead & Hbase)]
       |[Hfail _]]; [|rewrite Hexit in Hfail; now contradiction Hfail].
  assert (reg' = reg) as ->.
  { destruct (file w); cbn in *; [congruence|contradiction|congruence]. }
  set (worktree_id := Create.generate_worktree_id reg) in *.
  set (w1 := snd (Create.main E [feature_name] w)) in *.
  assert (Hin1 : <[worktree_id := info]> reg !! worktree_id = Some info)
    by apply lookup_insert_eq.
  pose proof (merge_outcome E w1 worktree_id _ info Hfile Hin1) as Hmerge.
  pose proof (merge_effect E worktree_id w1) as [_ Hbranch].
  cbv zeta in Hmerge, Hbranch.
  rewrite Hfile in Hbranch. unfold stored_base_branch in Hbranch.
  rewrite Hin1 in Hbranch. cbn [fmap option_fmap option_map] in Hbranch.
  rewrite Hbase in Hbranch. rewrite insert_insert_eq in Hmerge.
  set (w2 := snd (Merge.main E [worktree_id] w1)) in *.
  assert (Hclean : fst (Cleanup.main E [worktree_id] w2) = Returned tt
                   /\ file (snd (Cleanup.main E [worktree_id] w2))
                      = Stored (<[worktree_id := set_status info "cleaned_up"]> reg)).
  { destruct Hmerge as [[_ Hfile2]|[_ Hfile2]].
    - destruct (cleanup_returns E w2 worktree_id _ (set_status info "merged")
                  Hgit Hfile2 (lookup_insert_eq _ _ _)) as [h [Hrun _]].
      cbv zeta in Hrun. rewrite Hrun. cbn [fst snd file].
      now rewrite insert_insert_eq.
    - destruct (cleanup_returns E w2 worktree_id _ info Hgit Hfile2 Hin1)
        as [h [Hrun _]].
      cbv zeta in Hrun. rewrite Hrun. cbn [fst snd file].
      now rewrite insert_insert_eq. }
  destruct Hclean as [Hret3 Hfile3].
  exists info, head.
  split; [exact Hfile|]. split; [exact Hstatus|].
  split; [rewrite Hfile; cbn [stored_status]; now rewrite Hin1, <- Hstatus|].
  split; [exact Hhead|]. split; [exact Hbase|]. split; [|split].
  - destruct Hmerge as [[Hret Hfile2]|[Hex Hfile2]].
    + left. split; [exact Hret|]. split; [exact Hfile2|].
      rewrite Hfile2. cbn [stored_status]. now rewrite lookup_insert_eq.
    + right. split; [exact Hex|]. split; [now rewrite Hfile|].
      rewrite Hfile2. cbn [stored_status]. now rewrite Hin1, <- Hstatus.
  - destruct Hmerge as [[_ Hfile2]|[_ Hfile2]]; rewrite Hfile2;
      cbn [stored_base_branch]; rewrite lookup_insert_eq; cbn;
      now rewrite <- Hbase.
  - split; [exact Hbranch|]. split; [exact Hret3|]. split; [exact Hfile3|].
    rewrite Hfile3. cbn [stored_status stored_base_branch]. split; [|split].
    + now rewrite lookup_insert_eq.
    + rewrite lookup_insert_eq. cbn. now rewrite <- Hbase.
    + intros other Hother. now rewrite lookup_insert_ne.
Qed.

Lemma lifecycle_ends_cleaned_up_witness :
  let w1 := snd (Create.main conflicting ["auth-ui"] (start NoFile)) in
  let w2 := snd (Merge.main conflicting ["worktree-01"] w1) in
  let w3 := snd (Cleanup.main conflicting ["worktree-01"] w2) in
  fst (Merge.main conflicting ["worktree-01"] w1) = Exited 1
  /\ stored_status (file w3) "worktree-01" = Some "cleaned_up"
  /\ exists info,
       file w3 = Stored (<["worktree-01" := set_status info "cleaned_up"]> ∅)
       /\ wt_base_branch info = "main".
Proof.
  cbv zeta. split; [reflexivity|].
  destruct (lifecycle_ends_cleaned_up conflicting "auth-ui" (start NoFile) ∅
              (sample_env_git_installed _ _) eq_refl eq_refl)
    as (info & head & _ & _ & _ & Hhead & Hbase & _ & _ & _ & _ & Hfile
        & Hstatus & _).
  split; [exact Hstatus|].
  exists info. split; [exact Hfile|].
  rewrite Hbase. injection Hhead as <-. reflexivity.
Defined.

(** ** A status check that crashes *)

Lemma poll_while_crashing (E : environment) (worktree_id : string) (seconds : Z)
    (reg : registry) (info : worktree_info) (pr : pr_info) :
  0 <= seconds <= sleep_max E ->
  reg !! worktree_id = Some info ->
  wt_pr info = Some pr ->
  CheckPrStatus.empty_pr pr = false ->
  (forall h, observe_query E h (pr_number pr) = None) ->
  forall fuel w,
    file w = Stored reg ->
    PollPr.poll_loop E fuel worktree_id seconds w
    = (None, after_open_polls fuel (pr_number pr) seconds w).
Proof.
  intros Hsec Hinfo Hpr Hempty Hcrash fuel.
  induction fuel as [|fuel IH]; intros w Hfile; [reflexivity|].
  rewrite poll_loop_step by assumption.
  destruct (check_main_crash E w worktree_id reg info pr Hfile Hinfo Hpr Hempty
              (Hcrash (history w))) as [e He].
  rewrite He. cbn [fst snd exit_status Z.eqb Pos.eqb]. cbv zeta.
  rewrite IH by assumption. reflexivity.
Qed.

Lemma poll_while_malformed (E : environment) (worktree_id : string) (seconds : Z) :
  0 <= seconds <= sleep_max E ->
  forall fuel w,
    file w = Malformed ->
    PollPr.poll_loop E fuel worktree_id seconds w
    = (None, after_sleeps fuel seconds w).
Proof.
  intros Hsec fuel.
  induction fuel as [|fuel IH]; intros w Hfile; [reflexivity|].
  rewrite poll_loop_step by assumption.
  assert (Hcheck : CheckPrStatus.main E [worktree_id] w
                   = (Raised JSONDecodeError, w)).
  { destruct w as [f h]. cbn [file] in Hfile. subst f. reflexivity. }
  rewrite Hcheck. cbn [fst snd exit_status Z.eqb Pos.eqb]. cbv zeta.
  rewrite IH by assumption. reflexivity.
Qed.

Lemma sleeps_after_sleeps n seconds : forall w,
  sleeps (history (after_sleeps n seconds w))
  = (sleeps (history w) ++ repeat seconds n)%list.
Proof.
  induction n as [|n IH]; intros w; cbn [after_sleeps repeat].
  - now rewrite app_nil_r.
  - rewrite IH. cbn. now rewrite <- app_assoc.
Qed.

(** X10: the polling loop cannot tell a status check that crashed from
    one that found the pull request open: an uncaught exception ends the
    nested script with exit status 1, the code for "still open". So, for
    an admissible interval, the loop polls for ever, sleeping once per
    turn and never running cleanup, when the registry file does not parse,
    and likewise when the entry is fine but the [gh] query yields nothing
    usable: [gh] is not installed, or it prints something that is not
    JSON or has no ['state']. *)
Theorem poll_reads_crash_as_open (E : environment) (worktree_id : string)
    (interval_minutes : Z) (w : world) :
  0 <= interval_minutes * 60 <= sleep_max E ->
  let seconds := interval_minutes * 60 in
  (file w = Malformed ->
   forall fuel,
     PollPr.poll_pr_status E fuel worktree_id interval_minutes w
     = (None, after_sleeps fuel seconds w)
     /\ sleeps (history (after_sleeps fuel seconds w))
        = (sleeps (history w) ++ repeat seconds fuel)%list)
  /\ (forall reg info pr,
        file w = Stored reg ->
        reg !! worktree_id = Some info ->
        wt_pr info = Some pr ->
        CheckPrStatus.empty_pr pr = false ->
        (forall h, observe_query E h (pr_number pr) = None) ->
        forall fuel,
          PollPr.poll_pr_status E fuel worktree_id interval_minutes w
          = (None, after_open_polls fuel (pr_number pr) seconds w)
          /\ file (after_open_polls fuel (pr_number pr) seconds w) = file w
          /\ sleeps (history (after_open_polls fuel (pr_number pr) seconds w))
             = (sleeps (history w) ++ repeat seconds fuel)%list).
Proof.
  intros Hsec seconds. split.
  - intros Hfile fuel. split.
    + now apply poll_while_malformed.
    + apply sleeps_after_sleeps.
  - intros reg info pr Hfile Hinfo Hpr Hempty Hcrash fuel. split; [|split].
    + unfold PollPr.poll_pr_status.
      now apply (poll_while_crashing E worktree_id _ reg info pr).
    + apply file_after_open_polls.
    + apply sleeps_after_open_polls.
Qed.

Lemma poll_reads_crash_as_open_witness :
  fst (PollPr.poll_pr_status (calm "OPEN") 6 "worktree-01" 5 (start Malformed))
  = None
  /\ fst (PollPr.poll_pr_status no_gh 6 "worktree-01" 5 (start (Stored one_entry)))
     = None.
Proof.
  assert (Hsec : forall E, sleep_max E = 9223372036 -> 0 <= 5 * 60 <= sleep_max E).
  { intros E ->. split; intro H; discriminate H. }
  split.
  - pose proof (proj1 (poll_reads_crash_as_open (calm "OPEN") "worktree-01" 5
                         (start Malformed) (Hsec (calm "OPEN") eq_refl))
                  eq_refl 6%nat) as [Hrun _].
    now rewrite Hrun.
  - pose proof (proj2 (poll_reads_crash_as_open no_gh "worktree-01" 5
                         (start (Stored one_entry)) (Hsec no_gh eq_refl))
                  one_entry auth_ui _ eq_refl eq_refl eq_refl eq_refl
                  (fun h => eq_refl) 6%nat) as [Hrun _].
    now rewrite Hrun.
Defined.

(** * The installer's helpers *)

Example detect_language_csharp : Install.detect_language (Some "C# 12") = Some "dotnet".
Proof. reflexivity. Qed.

Example detect_language_django : Install.detect_language (Some "Django") = Some "go".
Proof. reflexivity. Qed.

Example detect_language_rust : Setup.detect_language "Rust" = "python".
Proof. reflexivity. Qed.

Lemma startswith_app p q s :
  PyStr.startswith (p ++ q) s = true -> PyStr.startswith p s = true.
Proof.
  revert s. induction p as [|a p IH]; intros s; [reflexivity|].
  destruct s as [|b s]; cbn; [discriminate|].
  intros [Hab Hrest]%andb_true_iff. rewrite Hab. now apply IH.
Qed.

Lemma contains_app p q s :
  PyStr.contains (p ++ q) s = true -> PyStr.contains p s = true.
Proof.
  induction s as [|b s IH]; cbn [PyStr.contains].
  - rewrite !orb_false_r. apply startswith_app.
  - intros [H|H]%orb_true_iff.
    + now rewrite (startswith_app _ _ _ H).
    + rewrite (IH H). apply orb_true_r.
Qed.

Lemma golang_is_go s :
  PyStr.contains "go" s || PyStr.contains "golang" s = PyStr.contains "go" s.
Proof.
  destruct (PyStr.contains "go" s) eqn:Hgo; [reflexivity|].
  destruct (PyStr.contains "golang" s) eqn:Hgolang; [|reflexivity].
  apply (contains_app "go" "lang") in Hgolang. congruence.
Qed.

(** X11: the language and framework detectors of the installer
    ([install.py]) and of the setup script ([setup_claude.py]) are the
    same classifiers: the setup copies answer what the installer copies
    answer, with ["python"] and ["react"] where the installer finds
    nothing (the empty text included). Two texts that differ in letter
    case only are classified alike. The test for ["golang"] never
    decides anything: a text is classified ["go"] exactly when it is not
    empty, its lower-case form contains ["go"] anywhere (as in "Django"
    or "MongoDB") and none of the keywords tried before. *)
Theorem detectors_agree (text other : string) :
  Setup.detect_language text
  = default "python" (Install.detect_language (Some text))
  /\ Setup.detect_frontend_framework text
     = default "react" (Install.detect_frontend_framework (Some text))
  /\ (PyStr.lower text = PyStr.lower other ->
      Install.detect_language (Some text) = Install.detect_language (Some other)
      /\ Install.detect_frontend_framework (Some text)
         = Install.detect_frontend_framework (Some other)
      /\ Install.detect_infrastructure_tool (Some text)
         = Install.detect_infrastructure_tool (Some other))
  /\ (Install.detect_language (Some text) = Some "go"
      <-> text <> EmptyString
          /\ PyStr.contains "go" (PyStr.lower text) = true
          /\ PyStr.contains "python" (PyStr.lower text) = false
          /\ PyStr.contains "c#" (PyStr.lower text) = false
          /\ PyStr.contains ".net" (PyStr.lower text) = false
          /\ PyStr.contains "node" (PyStr.lower text) = false
          /\ PyStr.contains "javascript" (PyStr.lower text) = false
          /\ PyStr.contains "typescript" (PyStr.lower text) = false).
Proof.
  split; [|split; [|split]].
  - destruct text as [|c s]; [reflexivity|].
    unfold Setup.detect_language, Install.detect_language. cbv zeta.
    repeat match goal with
           | |- context [if ?b then _ else _] => destruct b
           end; reflexivity.
  - destruct text as [|c s]; [reflexivity|].
    unfold Setup.detect_frontend_framework, Install.detect_frontend_framework.
    cbv zeta.
    repeat match goal with
           | |- context [if ?b then _ else _] => destruct b
           end; reflexivity.
  - intros Hlower.
    destruct text as [|c s], other as [|d t]; try discriminate;
      [repeat split|].
    unfold Install.detect_language, Install.detect_frontend_framework,
      Install.detect_infrastructure_tool. cbv zeta.
    now rewrite Hlower.
  - destruct text as [|c s].
    { split; [discriminate|]. intros [H _]. now contradiction H. }
    unfold Install.detect_language. cbv zeta. rewrite golang_is_go.
    set (l := PyStr.lower (String c s)).
    destruct (PyStr.contains "python" l), (PyStr.contains "c#" l),
      (PyStr.contains ".net" l), (PyStr.contains "node" l),
      (PyStr.contains "javascript" l), (PyStr.contains "typescript" l),
      (PyStr.contains "go" l); cbn;
      (split; [try discriminate; intros _; repeat split; discriminate
              |intros (_ & ? & ? & ? & ? & ? & ? & ?);
               try discriminate; reflexivity]).
Qed.

(** ** Placeholders *)

Lemma append_empty_r s : s ++ EmptyString = s.
Proof.
  induction s as [|c s IH]; [reflexivity|].
  change (String c (s ++ EmptyString) = String c s). now f_equal.
Qed.

Lemma startswith_refl s : PyStr.startswith s s = true.
Proof.
  induction s as [|c s IH]; [reflexivity|].
  cbn. now rewrite Ascii.eqb_refl.
Qed.

Lemma replace_skip_short old new s : forall skip,
  (String.length s <= skip)%nat -> PyStr.replace_skip skip old new s = EmptyString.
Proof.
  induction s as [|c s IH]; intros skip Hlen; [reflexivity|].
  cbn [String.length] in Hlen. destruct skip as [|skip]; [lia|].
  cbn [PyStr.replace_skip]. apply IH. lia.
Qed.

Lemma replace_skip_absent old new s :
  PyStr.contains old s = false -> PyStr.replace_skip 0 old new s = s.
Proof.
  induction s as [|c s IH]; [reflexivity|].
  cbn [PyStr.contains PyStr.replace_skip].
  intros [Hhere Hrest]%orb_false_iff. rewrite Hhere. now rewrite IH.
Qed.

Lemma replace_absent old new s :
  PyStr.contains old s = false -> PyStr.replace old new s = s.
Proof.
  destruct old as [|a old]; [|apply replace_skip_absent].
  destruct s; discriminate.
Qed.

Lemma replace_self old new :
  old <> EmptyString -> PyStr.replace old new old = new.
Proof.
  destruct old as [|a old]; [congruence|]. intros _.
  unfold PyStr.replace. cbn [PyStr.replace_skip].
  rewrite (startswith_refl (String a old)).
  rewrite replace_skip_short by (cbn; lia).
  apply append_empty_r.
Qed.

Lemma substitute_absent replacements : forall content,
  Forall (fun item => PyStr.contains (fst item) content = false) replacements ->
  Install.substitute replacements content = content.
Proof.
  unfold Install.substitute.
  induction replacements as [|[placeholder value] rest IH]; intros content Hall;
    [reflexivity|].
  apply Forall_cons in Hall as [Hhere Hrest].
  cbn [fold_left fst snd]. rewrite (replace_absent _ _ _ Hhere). now apply IH.
Qed.

Lemma contains_CRLF_CR s :
  PyStr.contains Io.CR s = false -> PyStr.contains Io.CRLF s = false.
Proof.
  induction s as [|c s IH]; [reflexivity|].
  cbn [PyStr.contains PyStr.startswith Io.CR Io.CRLF].
  intros [Hhere Hrest]%orb_false_iff.
  rewrite andb_true_r in Hhere. rewrite Hhere. cbn [andb orb].
  now apply IH.
Qed.

Lemma read_newlines_without_CR raw :
  PyStr.contains Io.CR raw = false -> Io.read_newlines raw = raw.
Proof.
  intros Hcr. unfold Io.read_newlines.
  rewrite (replace_absent Io.CRLF) by now apply contains_CRLF_CR.
  now apply replace_absent.
Qed.

Lemma replace_CR_leaves_none s :
  PyStr.contains Io.CR (PyStr.replace Io.CR Io.LF s) = false.
Proof.
  unfold PyStr.replace, Io.CR, Io.LF.
  induction s as [|c s IH]; [reflexivity|].
  cbn [PyStr.replace_skip PyStr.startswith String.length Nat.sub].
  rewrite andb_true_r. destruct (Ascii.eqb "013" c) eqn:Hc.
  - cbn [String.append PyStr.contains PyStr.startswith].
    change (Ascii.eqb "013" "010") with false. exact IH.
  - cbn [PyStr.contains PyStr.startswith]. rewrite Hc. exact IH.
Qed.

(** X12: [replace_in_file] of the setup script and
    [_substitute_claude_md] of the installer do the same to the files. A
    path that does not exist, or that cannot be read as text, leaves
    everything as it is, and no other file is ever touched. A file in
    which none of the placeholders occurs is still rewritten: what is
    written is its text with every line end read as a line feed (no
    carriage return is left in it) and then put out as [os.linesep]; the
    file is left as it was where it holds no carriage return and the
    line separator is the line feed. The replacements are made one after
    the other, in the order of the dict: where the text read is just the
    first placeholder, the value put in for it is itself gone over by all
    the later replacements, so a value that spells a later placeholder
    does not survive as typed. *)
Theorem substitution_in_sequence (os : platform) (file_path : string)
    (replacements : list (string * string)) (files : gmap string text_file) :
  let after := Setup.replace_in_file os file_path replacements files in
  Install._substitute_claude_md os file_path replacements files = after
  /\ (files !! file_path = None \/ files !! file_path = Some Unreadable ->
      after = files)
  /\ (forall other, other <> file_path -> after !! other = files !! other)
  /\ (forall raw,
        files !! file_path = Some (Text raw) ->
        Forall (fun item => PyStr.contains (fst item) (Io.read_newlines raw) = false)
          replacements ->
        after !! file_path
        = Some (Text (Io.write_newlines os (Io.read_newlines raw)))
        /\ PyStr.contains Io.CR (Io.read_newlines raw) = false
        /\ (os = Posix -> PyStr.contains Io.CR raw = false -> after = files))
  /\ (forall raw placeholder value,
        placeholder <> EmptyString ->
        files !! file_path = Some (Text raw) ->
        Io.read_newlines raw = placeholder ->
        Setup.replace_in_file os file_path ((placeholder, value) :: replacements)
          files !! file_path
        = Some (Text (Io.write_newlines os (Install.substitute replacements value)))).
Proof.
  cbv zeta. split; [reflexivity|]. unfold Setup.replace_in_file.
  split; [|split; [|split]].
  - now intros [-> | ->].
  - intros other Hother. destruct (files !! file_path) as [f|]; [|reflexivity].
    destruct (Io.read_text f); [|reflexivity]. cbv zeta.
    now rewrite lookup_insert_ne.
  - intros raw Hraw Habsent. rewrite Hraw. cbn [Io.read_text]. cbv zeta.
    rewrite (substitute_absent _ _ Habsent).
    split; [now rewrite lookup_insert_eq|].
    split; [apply replace_CR_leaves_none|].
    intros -> Hcr. rewrite (read_newlines_without_CR _ Hcr).
    now apply insert_id.
  - intros raw placeholder value Hne Hraw Hread. rewrite Hraw.
    cbn [Io.read_text]. cbv zeta. rewrite lookup_insert_eq.
    unfold Io.write_text, Install.substitute. rewrite Hread.
    cbn [fold_left fst snd]. now rewrite replace_self.
Qed.

(** A template with DOS line ends and no placeholder in it comes back
    with line feeds on a Posix system; one with line feeds comes back
    with DOS line ends on Windows. *)
Example replace_in_file_rewrites_line_ends :
  let dos := "a" ++ Io.CRLF ++ "b" in
  let unix := "a" ++ Io.LF ++ "b" in
  Setup.replace_in_file Posix "t.md" [("{{NAME}}", "x")] (<["t.md" := Text dos]> ∅)
  = <["t.md" := Text unix]> ∅
  /\ Setup.replace_in_file Windows "t.md" [("{{NAME}}", "x")]
       (<["t.md" := Text unix]> ∅)
     = <["t.md" := Text dos]> ∅.
Proof. split; reflexivity. Qed.

Example substitution_of_a_value_that_is_a_placeholder :
  Install.substitute
    [("{{PROJECT_NAME}}", "{{REPO_URL}}"); ("{{REPO_URL}}", "https://example.org/r")]
    "name: {{PROJECT_NAME}}"
  = "name: https://example.org/r".
Proof. reflexivity. Qed.

(** ** Merging the agent configurations *)

Lemma append_cancel_l p a b : p ++ a = p ++ b -> a = b.
Proof.
  induction p as [|c p IH]; [trivial|].
  cbn [String.append]. intros H. injection H as H. now apply IH.
Qed.

Lemma path_join_inj dir a b : Py.path_join dir a = Py.path_join dir b -> a = b.
Proof.
  unfold Py.path_join.
  destruct (String.eqb dir "/"); [apply (append_cancel_l "/")|].
  destruct (String.eqb dir "."); [trivial|].
  intros H. apply append_cancel_l in H. now apply (append_cancel_l "/").
Qed.

Lemma target_is_no_source dir kind name :
  kind = "backend" \/ kind = "frontend" ->
  Py.path_join dir "config.json"
  <> Py.path_join dir ("config_" ++ kind ++ "_" ++ name ++ ".json").
Proof.
  intros Hkind H. apply path_join_inj in H.
  destruct Hkind as [-> | ->]; discriminate H.
Qed.

Lemma updated_item mine theirs key :
  default ∅ (Setup.updated mine theirs) !! key = item_after_update mine theirs key.
Proof.
  unfold Setup.updated, item_after_update.
  change (default ∅ (Some (default ∅ theirs ∪ default ∅ mine)))
    with (default ∅ theirs ∪ default ∅ mine).
  rewrite lookup_union.
  destruct (default ∅ theirs !! key), (default ∅ mine !! key); reflexivity.
Qed.

(** X13: [merge_agent_configs] answers [True] exactly when the backend
    configuration chosen by [detect_language] exists and parses and,
    where a frontend is asked for, its configuration does not exist or
    parses too; when it answers [False] it has written nothing. On
    [True] it has written [config.json] and left the two sources alone.
    What it writes is the backend configuration as it is when there is no
    frontend configuration to merge; otherwise the backend configuration
    with ['agents'] and ['settings'] both present, each item being the
    frontend's where the frontend has one under that key and the
    backend's else, and with the other top-level keys of the backend only:
    nothing else of the frontend configuration gets in. *)
Theorem merge_agent_configs_overlay (backend_language frontend_framework : string)
    (has_frontend : bool) (template_dir : string)
    (files : gmap string config_file) :
  let agents_dir := Py.path_join template_dir ".agents" in
  let backend_file :=
    Py.path_join agents_dir
      ("config_backend_" ++ Setup.detect_language backend_language ++ ".json") in
  let frontend_file :=
    Py.path_join agents_dir
      ("config_frontend_" ++ Setup.detect_frontend_framework frontend_framework
       ++ ".json") in
  let target := Py.path_join agents_dir "config.json" in
  let run :=
    Setup.merge_agent_configs backend_language frontend_framework has_frontend
      template_dir files in
  (fst run = true
   <-> (exists backend, files !! backend_file = Some (Config backend))
       /\ (has_frontend = true -> files !! frontend_file <> Some NotAConfig))
  /\ (fst run = false -> snd run = files)
  /\ (snd run !! backend_file = files !! backend_file
      /\ snd run !! frontend_file = files !! frontend_file)
  /\ (forall backend,
        files !! backend_file = Some (Config backend) ->
        fst run = true ->
        exists merged,
          snd run = <[target := Config merged]> files
          /\ match (if has_frontend then files !! frontend_file else None) with
             | Some (Config frontend) =>
                 sections merged = sections backend
                 /\ is_Some (agents merged)
                 /\ is_Some (settings merged)
                 /\ forall key,
                      default ∅ (agents merged) !! key
                      = item_after_update (agents backend) (agents frontend) key
                      /\ default ∅ (settings merged) !! key
                         = item_after_update (settings backend) (settings frontend) key
             | _ => merged = backend
             end).
Proof.
  cbv zeta. unfold Setup.merge_agent_configs. cbv zeta.
  set (agents_dir := Py.path_join template_dir ".agents").
  set (backend_file := Py.path_join agents_dir _).
  set (frontend_file := Py.path_join agents_dir _).
  set (target := Py.path_join agents_dir "config.json").
  assert (Hb : target <> backend_file).
  { apply (target_is_no_source agents_dir "backend"). now left. }
  assert (Hf : target <> frontend_file).
  { apply (target_is_no_source agents_dir "frontend"). now right. }
  destruct (files !! backend_file) as [[|backend]|] eqn:Hbackend.
  - cbn [fst snd]. repeat split; try discriminate.
    + intros [[b Hsome] _]. discriminate.
    + exact Hbackend.
  - destruct has_frontend.
    + destruct (files !! frontend_file) as [[|frontend]|] eqn:Hfrontend;
        cbn [fst snd].
      * repeat split; try discriminate.
        -- intros [_ Hno]. now contradiction (Hno eq_refl).
        -- exact Hbackend.
        -- exact Hfrontend.
      * repeat split; try discriminate; eauto.
        -- now rewrite lookup_insert_ne.
        -- now rewrite lookup_insert_ne.
        -- intros b Hb' _. injection Hb' as <-.
           exists (Setup.overlay backend frontend).
           split; [reflexivity|]. split; [reflexivity|].
           split; [cbn; eauto|]. split; [cbn; eauto|].
           intros key. split; apply updated_item.
      * repeat split; try discriminate; eauto.
        -- now rewrite lookup_insert_ne.
        -- now rewrite lookup_insert_ne.
        -- intros b Hb' _. injection Hb' as <-. now exists backend.
    + cbn [fst snd]. repeat split; try discriminate; eauto.
      * now rewrite lookup_insert_ne.
      * now rewrite lookup_insert_ne.
      * intros b Hb' _. injection Hb' as <-. now exists backend.
  - cbn [fst snd]. repeat split; try discriminate.
    + intros [[b Hsome] _]. discriminate.
    + exact Hbackend.
Qed.

Example merge_agent_configs_sample :
  let run := Setup.merge_agent_configs "Python 3.11" "Next.js 14" true "/t" template_files in
  fst run = true
  /\ exists merged,
       snd run !! "/t/.agents/config.json" = Some (Config merged)
       /\ default ∅ (agents merged) !! "developer" = Some (JStr "react-frontend-dev")
       /\ default ∅ (agents merged) !! "reviewer" = Some (JStr "backend-code-reviewer")
       /\ default ∅ (settings merged) !! "lint" = Some (JBool true)
       /\ sections merged !! "workflow" = Some (JStr "backend").
Proof.
  cbv zeta. split; [reflexivity|].
  eexists. split; [vm_compute; reflexivity|].
  repeat split; vm_compute; reflexivity.
Qed.

(** ** Asking the operator *)

Lemma first_answer_spec lines : forall answer rest,
  Install.first_answer lines = Some (answer, rest) ->
  answer <> EmptyString
  /\ exists skipped line,
       lines = (skipped ++ line :: rest)%list
       /\ Forall blank skipped
       /\ answer = Py.strip line.
Proof.
  induction lines as [|line lines IH]; intros answer rest; [discriminate|].
  cbn [Install.first_answer]. cbv zeta.
  destruct (Py.strip line) as [|c s] eqn:Hline.
  - intros H. destruct (IH _ _ H) as (Hne & skipped & l & -> & Hblank & ->).
    split; [exact Hne|]. exists (line :: skipped), l.
    split; [reflexivity|]. split; [|reflexivity].
    constructor; assumption.
  - intros H. injection H as <- <-. split; [discriminate|].
    exists [], line. split; [reflexivity|]. split; [constructor|].
    now rewrite Hline.
Qed.

(** X14: [prompt] never hands back an empty answer. Given a default, it
    reads one line and answers with the line stripped of surrounding
    white space, or with the default when nothing is left of the line.
    Without a default it reads on past blank lines and answers with the
    first line that is not blank, stripped. When the input ends before
    an answer it ends on [EOFError] instead. A yes/no question is
    answered by the default only on a blank line: once something is
    typed, the default plays no part. *)
Theorem prompt_never_empty (question default : string) (lines : list string) :
  (forall answer rest,
     Install.prompt question default lines = Some (answer, rest) ->
     answer <> EmptyString
     /\ exists skipped line,
          lines = (skipped ++ line :: rest)%list
          /\ Forall blank skipped
          /\ (default <> EmptyString -> skipped = [])
          /\ (answer = Py.strip line \/ blank line /\ answer = default))
  /\ (Install.prompt question default lines = None
      <-> Forall blank lines /\ (default <> EmptyString -> lines = []))
  /\ (forall line rest,
        ~ blank line ->
        Install.yes_no question true (line :: rest)
        = Install.yes_no question false (line :: rest)).
Proof.
  split; [|split].
  - intros answer rest. unfold Install.prompt.
    destruct default as [|d default].
    + intros H. destruct (first_answer_spec _ _ _ H)
        as (Hne & skipped & line & Hlines & Hblank & Hanswer).
      split; [exact Hne|]. exists skipped, line.
      split; [exact Hlines|]. split; [exact Hblank|].
      split; [congruence|now left].
    + destruct lines as [|line lines]; [discriminate|]. cbv zeta.
      destruct (Py.strip line) as [|c s] eqn:Hline; intros H;
        injection H as <- <-; (split; [discriminate|]);
        exists [], line; (split; [reflexivity|]); (split; [constructor|]);
        (split; [reflexivity|]).
      * right. split; [exact Hline|reflexivity].
      * left. now rewrite Hline.
  - unfold Install.prompt. destruct default as [|d default].
    + induction lines as [|line lines IH]; cbn [Install.first_answer].
      * split; [intros _; split; [constructor|reflexivity]|reflexivity].
      * cbv zeta. destruct (Py.strip line) as [|c s] eqn:Hline.
        -- rewrite IH. split.
           ++ intros [Hall _]. split; [constructor; assumption|congruence].
           ++ intros [Hall _]. apply Forall_cons in Hall as [_ Hall].
              split; [exact Hall|congruence].
        -- split; [discriminate|]. intros [Hall _].
           apply Forall_cons in Hall as [Hb _]. unfold blank in Hb. congruence.
    + destruct lines as [|line lines].
      * split; [intros _; split; [constructor|reflexivity]|reflexivity].
      * cbv zeta. destruct (Py.strip line); split; try discriminate;
          intros [_ H]; now discriminate H.
  - intros line rest Hline. unfold Install.yes_no. cbv zeta.
    unfold blank in Hline.
    destruct (Py.strip line) as [|c s]; [now contradiction Hline|reflexivity].
Qed.

(** ** Renaming the project in the agent prompts *)

Lemma rename_in_prompt_spec project_name d : forall d',
  Setup.rename_in_prompt project_name d = Some d' ->
  d' = d \/ renamed_agent project_name (JDict d) (JDict d').
Proof.
  induction d as [|[key value] rest IH]; intros d'; cbn [Setup.rename_in_prompt].
  - intros H. injection H as <-. now left.
  - destruct (String.eqb_spec key "system_prompt") as [->|Hkey].
    + destruct value; try discriminate. intros H. injection H as <-.
      right. exists [], s, rest. repeat split. constructor.
    + destruct (Setup.rename_in_prompt project_name rest) as [rest'|];
        [|discriminate].
      intros H. injection H as <-.
      destruct (IH rest' eq_refl) as [->|(front & prompt & back & Hd & Hd' & Hfront)];
        [now left|].
      right. injection Hd as ->. injection Hd' as ->.
      exists ((key, value) :: front), prompt, back.
      repeat split. constructor; assumption.
Qed.

Lemma update_agent_spec project_name a a' :
  Setup.update_agent project_name a = Some a' ->
  a' = a \/ renamed_agent project_name a a'.
Proof.
  unfold Setup.update_agent.
  destruct (Setup.has_system_prompt a) as [[|]|]; try discriminate.
  - destruct a; try discriminate.
    destruct (Setup.rename_in_prompt project_name d) as [d'|] eqn:Hd;
      [|discriminate].
    intros H. injection H as <-.
    destruct (rename_in_prompt_spec _ _ _ Hd) as [->|Hren]; [now left|now right].
  - intros H. injection H as <-. now left.
Qed.

Lemma update_agents_lookup project_name (m m' : gmap string json) key :
  Setup.update_agents project_name m = Some m' ->
  m' !! key = m !! key ≫= Setup.update_agent project_name
  /\ (is_Some (m' !! key) <-> is_Some (m !! key)).
Proof.
  unfold Setup.update_agents. cbv zeta. case_bool_decide as Hall; [|discriminate].
  intros H. injection H as <-. rewrite !lookup_fmap.
  destruct (m !! key) as [a|] eqn:Ha; cbn; [|split; [reflexivity|tauto]].
  assert (Hsome : is_Some (Setup.update_agent project_name a)).
  { apply (Hall key). now rewrite lookup_fmap, Ha. }
  destruct Hsome as [a' Ha']. rewrite Ha'. cbn. split; [reflexivity|].
  split; eauto.
Qed.

(** X15: [update_agent_config] touches nothing but the configuration it
    is pointed at, and nothing at all when that path does not exist, does
    not parse, or when the loop raises for some agent (an agent that is no
    container, or whose ['system_prompt'] is not a string): the file is
    written only after the loop. When it does write, ['settings'] and the
    other top-level keys are as before, the agents are the same set, and
    each agent is either as it was or is the same dict with
    ['Citadel.AI'] replaced by the project name in its ['system_prompt']
    string; the name is the entry for [{{PROJECT_NAME}}] and
    ['YOUR_PROJECT'] without it. *)
Theorem update_agent_config_scope (config_path : string)
    (replacements : list (string * string)) (files : gmap string config_file) :
  let after := Setup.update_agent_config config_path replacements files in
  let project_name := Setup.get "{{PROJECT_NAME}}" "YOUR_PROJECT" replacements in
  (forall other, other <> config_path -> after !! other = files !! other)
  /\ (files !! config_path = None \/ files !! config_path = Some NotAConfig ->
      after = files)
  /\ (forall c,
        files !! config_path = Some (Config c) ->
        exists c',
          after !! config_path = Some (Config c')
          /\ settings c' = settings c
          /\ sections c' = sections c
          /\ forall key,
               (is_Some (default ∅ (agents c') !! key)
                <-> is_Some (default ∅ (agents c) !! key))
               /\ forall a a',
                    default ∅ (agents c) !! key = Some a ->
                    default ∅ (agents c') !! key = Some a' ->
                    a' = a \/ renamed_agent project_name a a').
Proof.
  cbv zeta. unfold Setup.update_agent_config. cbv zeta.
  set (project_name := Setup.get "{{PROJECT_NAME}}" "YOUR_PROJECT" replacements).
  split; [|split].
  - intros other Hother.
    destruct (files !! config_path) as [[|c]|]; try reflexivity.
    destruct (agents c) as [m|]; [|now rewrite lookup_insert_ne].
    destruct (Setup.update_agents project_name m); [|reflexivity].
    now rewrite lookup_insert_ne.
  - intros [-> | ->]; reflexivity.
  - intros c Hc. rewrite Hc.
    assert (Hsame : exists c',
      Some (Config c) = Some (Config c')
      /\ settings c' = settings c /\ sections c' = sections c
      /\ forall key,
           (is_Some (default ∅ (agents c') !! key)
            <-> is_Some (default ∅ (agents c) !! key))
           /\ forall a a',
                default ∅ (agents c) !! key = Some a ->
                default ∅ (agents c') !! key = Some a' ->
                a' = a \/ renamed_agent project_name a a').
    { exists c. repeat split; try tauto. intros a a' Ha Ha'. left. congruence. }
    destruct (agents c) as [m|] eqn:Hagents.
    + destruct (Setup.update_agents project_name m) as [m'|] eqn:Hm.
      * eexists. rewrite lookup_insert_eq. split; [reflexivity|].
        split; [reflexivity|]. split; [reflexivity|].
        intros key. cbn [agents default].
        destruct (update_agents_lookup _ _ _ key Hm) as [Hlookup Hdom].
        split; [exact Hdom|].
        intros a a' Ha Ha'. cbn in Ha, Ha'. rewrite Hlookup in Ha'.
        unfold default in Ha. cbn in Ha. rewrite Ha in Ha'. cbn in Ha'.
        now apply update_agent_spec.
      * rewrite Hc. destruct Hsame as (c' & Heq & Hrest).
        exists c'. split; [exact Heq|].
        first [exact Hrest | now rewrite Hagents in Hrest].
    + rewrite lookup_insert_eq. destruct Hsame as (c' & Heq & Hrest).
      exists c'. split; [exact Heq|].
        first [exact Hrest | now rewrite Hagents in Hrest].
Qed.
